(** * BI-Kpi-Framework: a shallow embedding of the KPI engines

    The three KPI classes of the repository
    ([AnalystWorkloadKPI], [FinancialPerformanceKPI],
    [OperationalProcessingKPI]) are embedded as functions over lists of
    records: a data frame is the list of its rows, in row order.

    Numbers.  Integer columns are [Z].  Float columns are exact
    rationals ([Q]); the results of float divisions are [fval]s, which
    add the IEEE values the source can produce when a denominator is
    zero (NaN, +inf, -inf).  Rounding error of binary floating point is
    not modelled. *)

From Stdlib Require Import ZArith QArith Qround List String Ascii Bool Lia Lqa.
From Stdlib Require Import Permutation Sorted.
Import ListNotations.

Open Scope string_scope.
Open Scope Z_scope.

(* ------------------------------------------------------------------ *)
(** ** Generic table operations *)

Section Tables.

Context {A : Type}.

(** Insertion into a list sorted for [leb]; equal keys keep their
    relative order. *)
Fixpoint insert_by (leb : A -> A -> bool) (x : A) (l : list A) : list A :=
  match l with
  | [] => [x]
  | y :: l' => if leb x y then x :: l else y :: insert_by leb x l'
  end.

Definition sort_by (leb : A -> A -> bool) (l : list A) : list A :=
  fold_right (insert_by leb) [] l.

(** The order that [leb] decides, as a relation. *)
Definition le_of (leb : A -> A -> bool) : A -> A -> Prop :=
  fun a b => leb a b = true.

(** Number of rows of [l] that satisfy [p]. *)
Definition count_if (p : A -> bool) (l : list A) : Z :=
  Z.of_nat (List.length (filter p l)).

End Tables.

(** Removal of duplicates, the first occurrence of a key is kept. *)
Fixpoint dedup (l : list string) : list string :=
  match l with
  | [] => []
  | x :: l' => x :: filter (fun y => negb (String.eqb x y)) (dedup l')
  end.

(** The distinct keys of a column in ascending order: the index that
    [groupby] (with its default [sort=True]) and [unstack] build. *)
Definition sorted_keys (l : list string) : list string :=
  sort_by String.leb (dedup l).

Definition Zsum (l : list Z) : Z := fold_right Z.add 0 l.
Definition Qsum (l : list Q) : Q := fold_right Qplus (0 : Q) l.

(** [Series.max] over integers; an empty series has no maximum. *)
Definition Zmax_list (l : list Z) : option Z :=
  match l with
  | [] => None
  | x :: l' => Some (fold_left Z.max l' x)
  end.

(** Rounding of an exact rational to the nearest integer, ties to the
    even one, as [round] and [DataFrame.round] do. *)
Definition round_half_even (q : Q) : Z :=
  let f := Qfloor q in
  let r := (q - inject_Z f)%Q in
  match (r ?= 1 # 2)%Q with
  | Lt => f
  | Gt => f + 1
  | Eq => if Z.even f then f else f + 1
  end.

(** [round(q, d)] for [d] decimals. *)
Definition round_dec (d : nat) (q : Q) : Q :=
  (inject_Z (round_half_even (q * inject_Z (10 ^ Z.of_nat d))) / inject_Z (10 ^ Z.of_nat d))%Q.

(* ------------------------------------------------------------------ *)
(** ** Float values produced by a division *)

Inductive fval : Type :=
| Fin (q : Q)
| PInf
| NInf
| NaN.

(** [a / b] on floats: a zero denominator gives NaN for [0/0] and a
    signed infinity otherwise (numpy and pandas raise nothing). *)
Definition fdiv (a b : Q) : fval :=
  if Qeq_bool b 0 then
    match (a ?= 0)%Q with
    | Eq => NaN
    | Gt => PInf
    | Lt => NInf
    end
  else Fin (a / b).

(** [x * k] for a positive finite constant [k]. *)
Definition fscale (k : Q) (x : fval) : fval :=
  match x with
  | Fin q => Fin (q * k)
  | other => other
  end.

(** [x ** 2]. *)
Definition fsquare (x : fval) : fval :=
  match x with
  | Fin q => Fin (q * q)
  | PInf | NInf => PInf
  | NaN => NaN
  end.

Definition fadd (x y : fval) : fval :=
  match x, y with
  | NaN, _ | _, NaN => NaN
  | Fin a, Fin b => Fin (a + b)
  | PInf, NInf | NInf, PInf => NaN
  | PInf, _ | _, PInf => PInf
  | NInf, _ | _, NInf => NInf
  end.

Definition is_nan (x : fval) : bool :=
  match x with NaN => true | _ => false end.

(** [Series.sum()], whose default [skipna=True] leaves NaN entries
    out; the sum of no entry is 0. *)
Definition fsum_skipna (l : list fval) : fval :=
  fold_left fadd (filter (fun x => negb (is_nan x)) l) (Fin 0).

(** [round(x, d)]; infinities and NaN are returned as they are. *)
Definition fround (d : nat) (x : fval) : fval :=
  match x with
  | Fin q => Fin (round_dec d q)
  | other => other
  end.

(** [x > k]; a comparison with NaN is false. *)
Definition fgtb (x : fval) (k : Q) : bool :=
  match x with
  | Fin q => negb (Qle_bool q k)
  | PInf => true
  | NInf | NaN => false
  end.

(** Equality of float values, up to the representation of a
    rational. *)
Definition feq (x y : fval) : Prop :=
  match x, y with
  | Fin a, Fin b => (a == b)%Q
  | PInf, PInf | NInf, NInf | NaN, NaN => True
  | _, _ => False
  end.

(* ------------------------------------------------------------------ *)
(** ** Input tables *)

(** A row of [purchase_orders]. *)
Record Order : Type := mkOrder {
  order_id : string;
  analyst_id : string;
  supplier_id : string;
  num_skus : Z;
  total_cost : Q;
  sale_amount : Q;
  margin : Q;
  margin_pct : Q
}.

(** A row of [order_lines]. *)
Record OrderLine : Type := mkOrderLine {
  line_order_id : string;
  line_sku : string;
  quantity : Z;
  unit_price : Q;
  line_total : Q
}.

(** The columns [sku] and [category] of a row of [skus]. *)
Record Sku : Type := mkSku {
  sku : string;
  category : string
}.

(** [order_lines_df.merge(skus_df[['sku', 'category']], on='sku')]:
    an inner join that keeps the order of the left rows; a line whose
    SKU is not in [skus_df] yields no row. *)
Definition merge_sku_category (order_lines_df : list OrderLine) (skus_df : list Sku)
  : list (OrderLine * string) :=
  flat_map (fun l =>
              map (fun s => (l, category s))
                  (filter (fun s => String.eqb (sku s) (line_sku l)) skus_df))
           order_lines_df.

(** What a method call yields: a value, or the exception it raises. *)
Inductive exn : Type :=
| ValueError (msg : string)
| ZeroDivisionError (msg : string).

Inductive result (A : Type) : Type :=
| Return (a : A)
| Raise (e : exn).

Arguments Return {A} a.
Arguments Raise {A} e.

(** [a < b] on floats without NaN. *)
Definition Qlt_bool (a b : Q) : bool := negb (Qle_bool b a).

(** The columns of a row of [suppliers] that [analyze_by_supplier]
    joins. *)
Record Supplier : Type := mkSupplier {
  sup_supplier_id : string;
  supplier_name : string;
  supplier_type : string;
  rating : Q
}.

(** [Series.mean()] of a column without NaN; the mean of an empty
    column is NaN. *)
Definition Qmean (l : list Q) : fval :=
  fdiv (Qsum l) (inject_Z (Z.of_nat (List.length l))).

(** [Series.median()] of a column without NaN: the middle value of
    the sorted column, or the mean of the two middle values; NaN for
    an empty column. *)
Definition Qmedian (l : list Q) : fval :=
  let s := sort_by Qle_bool l in
  let n := List.length s in
  match n with
  | O => NaN
  | _ =>
      if Nat.even n
      then Fin ((nth (Nat.div n 2 - 1) s 0 + nth (Nat.div n 2) s 0) / 2)%Q
      else Fin (nth (Nat.div n 2) s 0%Q)
  end.

(** [Series.mean()] of a float column: NaN entries are skipped. *)
Definition fmean (l : list fval) : fval :=
  match fsum_skipna l with
  | Fin q =>
      fdiv q (inject_Z (Z.of_nat (List.length (filter (fun x => negb (is_nan x)) l))))
  | other => other
  end.

(** [x < k] and [k < x]; a comparison with NaN is false. *)
Definition flt_left (x : fval) (k : Q) : bool :=
  match x with
  | Fin q => Qlt_bool q k
  | NInf => true
  | PInf | NaN => false
  end.

Definition flt_right (k : Q) (x : fval) : bool :=
  match x with
  | Fin q => Qlt_bool k q
  | PInf => true
  | NInf | NaN => false
  end.

(* ------------------------------------------------------------------ *)
(** ** analyst_workload.py *)

Module AnalystWorkloadKPI.

(** [COMPLEXITY_CATEGORIES]: label, lower bound, upper bound; [None]
    is [float('inf')].  A dict iterates in insertion order. *)
Definition COMPLEXITY_CATEGORIES : list (string * (Z * option Z)) :=
  [ ("Muy Simple", (1, Some 5));
    ("Simple", (6, Some 20));
    ("Moderado", (21, Some 50));
    ("Complejo", (51, None)) ].

(** [COMPLEXITY_WEIGHTS]. *)
Definition COMPLEXITY_WEIGHTS : list (string * Q) :=
  [ ("Muy Simple", 1 # 1);
    ("Simple", 5 # 2);
    ("Moderado", 5 # 1);
    ("Complejo", 10 # 1) ]%Q.

(** [min_val <= num_skus <= max_val]. *)
Definition in_range (n : Z) (r : Z * option Z) : bool :=
  let '(min_val, max_val) := r in
  (min_val <=? n) &&
  match max_val with
  | Some m => n <=? m
  | None => true
  end.

(** The loop of [get_complexity] over the remaining items of the
    dict, with the fall-through [return 'Complejo']. *)
Fixpoint get_complexity_in (cats : list (string * (Z * option Z))) (n : Z) : string :=
  match cats with
  | [] => "Complejo"
  | (cat, r) :: rest => if in_range n r then cat else get_complexity_in rest n
  end.

Definition get_complexity (n : Z) : string :=
  get_complexity_in COMPLEXITY_CATEGORIES n.

(** [Series.map(dict)]: a label that is not a key maps to NaN,
    here [None]. *)
Fixpoint map_weight (ws : list (string * Q)) (c : string) : option Q :=
  match ws with
  | [] => None
  | (k, w) :: rest => if String.eqb k c then Some w else map_weight rest c
  end.

Definition complexity_weight_of (n : Z) : option Q :=
  map_weight COMPLEXITY_WEIGHTS (get_complexity n).

(** A row of [self.orders_df] once [_categorize_complexity] has
    attached the columns [complexity] and [complexity_weight]. *)
Record TaggedOrder : Type := mkTagged {
  order : Order;
  complexity : string;
  complexity_weight : option Q
}.

Definition _categorize_complexity (orders_df : list Order) : list TaggedOrder :=
  map (fun o =>
         let c := get_complexity (num_skus o) in
         mkTagged o c (map_weight COMPLEXITY_WEIGHTS c))
      orders_df.

(** [__init__]: the instance is its tagged copy of the orders. *)
Definition init (orders_df : list Order) : list TaggedOrder :=
  _categorize_complexity orders_df.

(** A group sum of a float column; NaN entries are skipped. *)
Definition sum_skipna (l : list (option Q)) : Q :=
  Qsum (flat_map (fun x => match x with Some q => [q] | None => [] end) l).

(** A row of the frame returned by [calculate_workload_by_analyst],
    indexed by [w_analyst]; [breakdown] holds the columns that
    [unstack(fill_value=0)] adds, one per complexity label present
    in the table. *)
Record WorkloadRow : Type := mkWorkloadRow {
  w_analyst : string;
  total_tickets : Z;
  total_skus : Z;
  weighted_workload : Q;
  breakdown : list (string * Z);
  avg_skus_per_ticket : fval;
  avg_complexity_weight : fval
}.

Definition group_of (self : list TaggedOrder) (a : string) : list TaggedOrder :=
  filter (fun r => String.eqb (analyst_id (order r)) a) self.

Definition calculate_workload_by_analyst (self : list TaggedOrder) : list WorkloadRow :=
  let columns := sorted_keys (map complexity self) in
  map (fun a =>
         let g := group_of self a in
         let tickets := Z.of_nat (List.length g) in
         let skus := Zsum (map (fun r => num_skus (order r)) g) in
         let load := sum_skipna (map complexity_weight g) in
         mkWorkloadRow a tickets skus
           (round_dec 2 load)
           (map (fun c => (c, count_if (fun r => String.eqb (complexity r) c) g)) columns)
           (fround 2 (fdiv (inject_Z skus) (inject_Z tickets)))
           (fround 2 (fdiv load (inject_Z tickets))))
      (sorted_keys (map (fun r => analyst_id (order r)) self)).

(** *** identify_specialization *)

Definition occurrences (c : string) (x : list string) : Z :=
  count_if (String.eqb c) x.

(** The highest number of occurrences of a value of [x]. *)
Definition top_count (x : list string) : Z :=
  fold_right Z.max 0 (map (fun k => occurrences k x) (dedup x)).

(** [Series.mode()]: the values with the highest number of
    occurrences, returned in ascending order. *)
Definition series_mode (x : list string) : list string :=
  sort_by String.leb (filter (fun k => occurrences k x =? top_count x) (dedup x)).

(** Following the spec (section 4.3), for comparison with
    [series_mode]: of the categories tied for most frequent, the first
    one encountered in the order of the joined lines. *)
Definition first_encountered_mode (x : list string) : option string :=
  find (fun k => occurrences k x =? top_count x) x.

(** [lambda x: x.mode()[0] if len(x) > 0 else 'Sin categoría'].  The
    mode of a non-empty group is not empty ([series_mode_nonempty]),
    so the default of [hd] is never returned. *)
Definition dominant (x : list string) : string :=
  if (0 <? Z.of_nat (List.length x)) then hd "" (series_mode x)
  else "Sin categoría".

(** [order_lines.groupby('order_id')['category'].apply(...)]: a
    series indexed by the order ids that occur in the joined
    lines. *)
Definition dominant_by_order (order_lines : list (OrderLine * string))
  : list (string * string) :=
  map (fun oid =>
         (oid,
          dominant (map snd
                     (filter (fun r => String.eqb (line_order_id (fst r)) oid) order_lines))))
      (sorted_keys (map (fun r => line_order_id (fst r)) order_lines)).

(** [self.orders_df.merge(series, left_on='order_id',
    right_index=True)]: [how] is left at its default, an inner
    join. *)
Definition orders_with_category (self : list TaggedOrder) (dom : list (string * string))
  : list (TaggedOrder * string) :=
  flat_map (fun o =>
              map (fun d => (o, snd d))
                  (filter (fun d => String.eqb (order_id (order o)) (fst d)) dom))
           self.

(** [groupby(['analyst_id', 'category']).size().unstack(fill_value=0)]. *)
Definition category_dist (owc : list (TaggedOrder * string))
  : list (string * list (string * Z)) :=
  let columns := sorted_keys (map snd owc) in
  map (fun a =>
         (a,
          map (fun c =>
                 (c, count_if (fun r => String.eqb (analyst_id (order (fst r))) a
                                        && String.eqb (snd r) c) owc))
              columns))
      (sorted_keys (map (fun r => analyst_id (order (fst r))) owc)).

(** [idxmax(axis=1)] on one row: the first column holding the
    maximum. *)
Fixpoint idxmax (row : list (string * Z)) : option (string * Z) :=
  match row with
  | [] => None
  | (c, n) :: rest =>
      match idxmax rest with
      | Some (c', n') => if n' <=? n then Some (c, n) else Some (c', n')
      | None => Some (c, n)
      end
  end.

Record SpecializationRow : Type := mkSpecializationRow {
  s_analyst : string;
  primary_category : option string;
  primary_category_pct : fval;
  categories_handled : Z
}.

Definition identify_specialization (self : list TaggedOrder)
           (skus_df : list Sku) (order_lines_df : list OrderLine)
  : list SpecializationRow :=
  let order_lines := merge_sku_category order_lines_df skus_df in
  let owc := orders_with_category self (dominant_by_order order_lines) in
  map (fun '(a, row) =>
         let best := idxmax row in
         mkSpecializationRow a
           (option_map fst best)
           (match best with
            | Some (_, m) =>
                fround 1 (fscale 100 (fdiv (inject_Z m) (inject_Z (Zsum (map snd row)))))
            | None => NaN
            end)
           (count_if (fun cn => 0 <? snd cn) row))
      (category_dist owc).

(** *** detect_workload_imbalance *)

Definition Qmax_list (l : list Q) : option Q :=
  match l with
  | [] => None
  | x :: l' => Some (fold_left (fun a b => if Qle_bool a b then b else a) l' x)
  end.

Definition Qmin_list (l : list Q) : option Q :=
  match l with
  | [] => None
  | x :: l' => Some (fold_left (fun a b => if Qle_bool b a then b else a) l' x)
  end.

(** The entries of the returned dict that need no square root; the
    maximum and minimum of an empty column are NaN, here [None]. *)
Record Imbalance : Type := mkImbalance {
  max_workload : option Q;
  min_workload : option Q;
  avg_workload : fval;
  imbalance_ratio : fval
}.

Definition detect_workload_imbalance (self : list TaggedOrder) : Imbalance :=
  let workload := map weighted_workload (calculate_workload_by_analyst self) in
  mkImbalance
    (Qmax_list workload)
    (Qmin_list workload)
    (fdiv (Qsum workload) (inject_Z (Z.of_nat (List.length workload))))
    (match Qmax_list workload, Qmin_list workload with
     | Some a, Some b => fdiv a b
     | _, _ => NaN
     end).

(** *** get_complexity_distribution *)

(** A row of the frame returned by [get_complexity_distribution],
    indexed by the complexity label. *)
Record DistributionRow : Type := mkDistributionRow {
  d_complexity : string;
  d_count : Z;
  d_avg_skus : fval;
  d_median_skus : fval;
  d_max_skus : option Z;
  d_total_weight : Q;
  d_pct_orders : fval
}.

Definition complexity_group (self : list TaggedOrder) (c : string) : list TaggedOrder :=
  filter (fun r => String.eqb (complexity r) c) self.

Definition get_complexity_distribution (self : list TaggedOrder) : list DistributionRow :=
  let labels := sorted_keys (map complexity self) in
  let all_counts :=
    Zsum (map (fun c => Z.of_nat (List.length (complexity_group self c))) labels) in
  map (fun c =>
         let g := complexity_group self c in
         let skus := map (fun r => num_skus (order r)) g in
         let n := Z.of_nat (List.length g) in
         mkDistributionRow c n
           (fround 2 (Qmean (map inject_Z skus)))
           (fround 2 (Qmedian (map inject_Z skus)))
           (Zmax_list skus)
           (round_dec 2 (sum_skipna (map complexity_weight g)))
           (fround 2 (fround 1 (fscale 100 (fdiv (inject_Z n) (inject_Z all_counts))))))
      labels.

End AnalystWorkloadKPI.

(* ------------------------------------------------------------------ *)
(** ** financial_metrics.py *)

Module FinancialPerformanceKPI.

(** The instance: its copy of the orders and, when given, of the order
    lines ([None] is Python's [None]). *)
Record t : Type := mkKPI {
  orders_df : list Order;
  order_lines_df : option (list OrderLine)
}.

(** [__init__(orders_df, order_lines_df=None)]. *)
Definition init (orders : list Order) (order_lines : option (list OrderLine)) : t :=
  mkKPI orders order_lines.

(** *** calculate_concentration_risk *)

(** The sum of [total_cost] over the group of supplier [s]. *)
Definition group_cost (self : t) (s : string) : Q :=
  Qsum (map total_cost (filter (fun o => String.eqb (supplier_id o) s) (orders_df self))).

(** [groupby('supplier_id')['total_cost'].sum()
     .sort_values(ascending=False)]. *)
Definition supplier_purchases (self : t) : list (string * Q) :=
  sort_by (fun a b => Qle_bool (snd b) (snd a))
    (map (fun s => (s, group_cost self s))
         (sorted_keys (map supplier_id (orders_df self)))).

Definition total_purchases (self : t) : Q :=
  Qsum (map snd (supplier_purchases self)).

(** [market_shares = (supplier_purchases / total_purchases * 100) ** 2]. *)
Definition market_shares (self : t) : list fval :=
  map (fun sp => fsquare (fscale 100 (fdiv (snd sp) (total_purchases self))))
      (supplier_purchases self).

(** [hhi = market_shares.sum()]. *)
Definition hhi (self : t) : fval := fsum_skipna (market_shares self).

Record Concentration : Type := mkConcentration {
  total_suppliers : Z;
  top5_concentration_pct : fval;
  hhi_index : fval;
  risk_level : string
}.

(** The dict that the method returns on a table with rows, where the
    sums are numpy numbers and a division by zero raises nothing. *)
Definition concentration_dict (self : t) : Concentration :=
  let top5_pct :=
    fscale 100 (fdiv (Qsum (map snd (firstn 5 (supplier_purchases self))))
                     (total_purchases self)) in
  mkConcentration
    (Z.of_nat (List.length (supplier_purchases self)))
    (fround 2 top5_pct)
    (fround 2 (hhi self))
    (if fgtb (hhi self) 2500 then "Alto"
     else if fgtb (hhi self) 1500 then "Moderado"
     else "Bajo").

(** [calculate_concentration_risk].  A table without rows, as
    [read_csv] gives it for a file that holds only its header, has
    object columns: [supplier_purchases.head(5).sum()] and
    [total_purchases] are then the Python int 0, and the first
    division, [0 / 0], raises [ZeroDivisionError]. *)
Definition calculate_concentration_risk (self : t) : result Concentration :=
  match orders_df self with
  | [] => Raise (ZeroDivisionError "division by zero")
  | _ :: _ => Return (concentration_dict self)
  end.

(** *** analyze_by_category *)

Record CategoryRow : Type := mkCategoryRow {
  c_category : string;
  num_orders : Z;
  total_sales : Q;
  avg_margin_pct : fval;
  pct_sales : fval
}.

Definition analyze_by_category (self : t) (skus_df : list Sku) : result (list CategoryRow) :=
  match order_lines_df self with
  | None => Raise (ValueError "Se requiere order_lines_df para análisis por categoría")
  | Some lines =>
      let lines_with_category := merge_sku_category lines skus_df in
      (* merge(self.orders_df[['order_id', 'margin_pct']], on='order_id') *)
      let lines_with_order :=
        flat_map (fun lc =>
                    map (fun o => (lc, margin_pct o))
                        (filter (fun o => String.eqb (order_id o) (line_order_id (fst lc)))
                                (orders_df self)))
                 lines_with_category in
      let metrics :=
        map (fun c =>
               let g := filter (fun r => String.eqb (snd (fst r)) c) lines_with_order in
               (c,
                Z.of_nat (List.length (dedup (map (fun r => line_order_id (fst (fst r))) g))),
                Qsum (map (fun r => line_total (fst (fst r))) g),
                fdiv (Qsum (map snd g)) (inject_Z (Z.of_nat (List.length g)))))
            (sorted_keys (map (fun r => snd (fst r)) lines_with_order)) in
      let all_sales := Qsum (map (fun m => snd (fst m)) metrics) in
      Return
        (sort_by (fun a b => Qle_bool (total_sales b) (total_sales a))
           (map (fun '(c, n, sales, avg) =>
                   mkCategoryRow c n (round_dec 2 sales) (fround 2 avg)
                     (fround 2 (fscale 100 (fdiv sales all_sales))))
                metrics))
  end.

(** *** identify_margin_opportunities *)

(** The six columns that the method returns. *)
Record Opportunity : Type := mkOpportunity {
  op_order_id : string;
  op_supplier_id : string;
  op_total_cost : Q;
  op_margin_pct : Q;
  improvement_potential : Q;
  potential_additional_margin : Q
}.

(** The row of [low_margin] built from one selected order. *)
Definition opportunity_of (threshold : Q) (o : Order) : Opportunity :=
  let improvement := (threshold - margin_pct o)%Q in
  mkOpportunity (order_id o) (supplier_id o) (total_cost o) (margin_pct o)
    improvement
    (total_cost o * improvement / 100)%Q.

(** [ascending=False]: a row goes before the rows whose key is not
    larger. *)
Definition by_potential_desc (a b : Opportunity) : bool :=
  Qle_bool (potential_additional_margin b) (potential_additional_margin a).

Definition identify_margin_opportunities (self : t) (threshold : Q) : list Opportunity :=
  let low_margin := filter (fun o => Qlt_bool (margin_pct o) threshold) (orders_df self) in
  sort_by by_potential_desc (map (opportunity_of threshold) low_margin).

(** *** calculate_margin_metrics *)

(** The entries of the returned dict that need no square root. *)
Record MarginMetrics : Type := mkMarginMetrics {
  mm_total_cost : Q;
  mm_total_sale : Q;
  mm_total_margin : Q;
  mm_avg_margin_pct : fval;
  mm_median_margin_pct : fval;
  orders_with_low_margin : Z;
  orders_with_high_margin : Z
}.

Definition calculate_margin_metrics (self : t) : MarginMetrics :=
  mkMarginMetrics
    (Qsum (map total_cost (orders_df self)))
    (Qsum (map sale_amount (orders_df self)))
    (Qsum (map margin (orders_df self)))
    (Qmean (map margin_pct (orders_df self)))
    (Qmedian (map margin_pct (orders_df self)))
    (count_if (fun o => Qlt_bool (margin_pct o) 10) (orders_df self))
    (count_if (fun o => Qlt_bool 20 (margin_pct o)) (orders_df self)).

(** *** analyze_by_supplier *)

(** A row of the frame returned by [analyze_by_supplier]; [sr_info]
    holds the three joined columns, [None] when the left join finds
    no supplier row. *)
Record SupplierRow : Type := mkSupplierRow {
  sr_supplier_id : string;
  sr_num_orders : Z;
  sr_total_purchases : Q;
  sr_total_sales : Q;
  sr_total_margin : Q;
  sr_avg_margin_pct : fval;
  sr_pct_purchases : fval;
  sr_info : option (string * string * Q)
}.

Definition supplier_group (self : t) (s : string) : list Order :=
  filter (fun o => String.eqb (supplier_id o) s) (orders_df self).

(** [ascending=False] on [total_purchases]. *)
Definition by_purchases_desc (a b : SupplierRow) : bool :=
  Qle_bool (sr_total_purchases b) (sr_total_purchases a).

(** The aggregated columns of supplier [s], with the joined columns
    [info]; [all_purchases] is [total_purchases.sum()] over the
    groups.  [round(2)] is applied to every float column. *)
Definition supplier_metrics (self : t) (all_purchases : Q)
           (s : string) (info : option (string * string * Q)) : SupplierRow :=
  let g := supplier_group self s in
  mkSupplierRow s
    (Z.of_nat (List.length g))
    (round_dec 2 (Qsum (map total_cost g)))
    (round_dec 2 (Qsum (map sale_amount g)))
    (round_dec 2 (Qsum (map margin g)))
    (fround 2 (Qmean (map margin_pct g)))
    (fround 2 (fscale 100 (fdiv (Qsum (map total_cost g)) all_purchases)))
    info.

(** [join(suppliers_df.set_index('supplier_id')[...], how='left')]
    for the row of supplier [s]: one row per matching supplier row,
    and one row without joined columns when there is none. *)
Definition supplier_join (self : t) (suppliers_df : list Supplier) (all_purchases : Q)
           (s : string) : list SupplierRow :=
  match filter (fun x => String.eqb (sup_supplier_id x) s) suppliers_df with
  | [] => [supplier_metrics self all_purchases s None]
  | found =>
      map (fun x =>
             supplier_metrics self all_purchases s
               (Some (supplier_name x, supplier_type x, round_dec 2 (rating x))))
          found
  end.

Definition analyze_by_supplier (self : t) (suppliers_df : list Supplier)
  : list SupplierRow :=
  let keys := sorted_keys (map supplier_id (orders_df self)) in
  let all_purchases :=
    Qsum (map (fun s => Qsum (map total_cost (supplier_group self s))) keys) in
  sort_by by_purchases_desc
          (flat_map (supplier_join self suppliers_df all_purchases) keys).

End FinancialPerformanceKPI.

(* ------------------------------------------------------------------ *)
(** ** invoice_processing.py *)

Module OperationalProcessingKPI.

(** A row of [self.invoices_df] once [__init__] has attached [week]
    (the ISO week of [processed_date]) and [year]. *)
Record Invoice : Type := mkInvoice {
  invoice_id : string;
  assigned_to : string;
  has_error : bool;
  week : Z;
  year : Z
}.

Record KpiRow : Type := mkKpiRow {
  k_analyst : string;
  KPI_1_Volumen : Z;
  KPI_2_Cumplimiento : Q;
  KPI_3_Calidad : fval;
  Semana : Z;
  Año : Z
}.

(** [fillna(0)]. *)
Definition fillna0 (x : fval) : fval :=
  match x with NaN => Fin 0 | other => other end.

(** The body of [calculate_weekly_kpis] below the defaulting of its
    arguments. *)
Definition weekly_kpis_at (self : list Invoice) (w y : Z) : list KpiRow :=
  let week_data := filter (fun r => (week r =? w) && (year r =? y)) self in
  map (fun a =>
         let g := filter (fun r => String.eqb (assigned_to r) a) week_data in
         let volume := Z.of_nat (List.length g) in
         mkKpiRow a volume 100
           (fround 1
              (fillna0
                 (fscale 100
                    (fdiv (inject_Z (count_if (fun r => negb (has_error r)) g))
                          (inject_Z volume)))))
           w y)
      (sorted_keys (map assigned_to week_data)).

(** [calculate_weekly_kpis(week=None, year=None)]: when either
    argument is [None] both are replaced, by the maximum of the column
    [week] and the maximum of the column [year].  An empty table has
    no maximum and no row passes the filter. *)
Definition calculate_weekly_kpis (self : list Invoice) (week_arg year_arg : option Z)
  : list KpiRow :=
  match week_arg, year_arg with
  | Some w, Some y => weekly_kpis_at self w y
  | _, _ =>
      match Zmax_list (map week self), Zmax_list (map year self) with
      | Some w, Some y => weekly_kpis_at self w y
      | _, _ => []
      end
  end.

(** The arithmetic of [max_week - i].  The column [week] comes from
    [dt.isocalendar().week], so [max_week] is a numpy uint32, and [i]
    is a Python int.  NumPy 1.x promotes the two to int64; from NumPy
    2 on the result stays a uint32 and wraps around modulo 2^32. *)
Inductive week_arith : Type :=
| Int64Promotion
| UInt32Wrap.

Definition week_sub (arith : week_arith) (max_week i : Z) : Z :=
  match arith with
  | Int64Promotion => max_week - i
  | UInt32Wrap => (max_week - i) mod 2 ^ 32
  end.

(** One turn of the loop of [calculate_trend]: the period visited at
    index [i]. *)
Definition trend_period (arith : week_arith) (max_week max_year : Z) (i : Z) : Z * Z :=
  let week_num := week_sub arith max_week i in
  let year := max_year in
  if week_num <? 1 then (week_num + 52, year - 1) else (week_num, year).

(** The periods that [for i in range(weeks)] visits, in order, as
    pairs (week, year).  [None]: no list of periods is modelled; the
    table is empty and has no maximum, or, with uint32 weeks, an
    index [i] does not fit in 32 bits (NumPy raises
    [OverflowError]). *)
Definition trend_periods (arith : week_arith) (self : list Invoice) (weeks : nat)
  : option (list (Z * Z)) :=
  match Zmax_list (map week self), Zmax_list (map year self) with
  | Some max_week, Some max_year =>
      match arith with
      | UInt32Wrap =>
          if 2 ^ 32 <? Z.of_nat weeks then None
          else Some (map (fun i => trend_period arith max_week max_year (Z.of_nat i))
                         (seq 0 weeks))
      | Int64Promotion =>
          Some (map (fun i => trend_period arith max_week max_year (Z.of_nat i))
                    (seq 0 weeks))
      end
  | _, _ => None
  end.

(** [sort_values(['Año', 'Semana'])]. *)
Definition by_year_week (a b : KpiRow) : bool :=
  (Año a <? Año b) || ((Año a =? Año b) && (Semana a <=? Semana b)).

(** [calculate_trend(analyst_id, weeks)].  [if analyst_id:] is false
    for [None] and for the empty string. *)
Definition calculate_trend (arith : week_arith) (self : list Invoice)
           (analyst : option string) (weeks : nat)
  : option (list KpiRow) :=
  match trend_periods arith self weeks with
  | None => None
  | Some periods =>
      let trends :=
        map (fun '(week_num, yr) =>
               let week_kpis := calculate_weekly_kpis self (Some week_num) (Some yr) in
               match analyst with
               | Some a =>
                   if String.eqb a "" then week_kpis
                   else filter (fun k => String.eqb (k_analyst k) a) week_kpis
               | None => week_kpis
               end)
            periods in
      Some (sort_by by_year_week (List.concat trends))
  end.

(** *** identify_performance_issues *)

Record IssueSummary : Type := mkIssueSummary {
  total_analysts : Z;
  analysts_with_quality_issues : Z;
  analysts_with_volume_issues : Z;
  avg_quality : fval;
  avg_volume : fval
}.

Record Issues : Type := mkIssues {
  low_quality : list string;
  low_volume : list string;
  summary : IssueSummary
}.

Definition identify_performance_issues (self : list Invoice) (threshold_quality : Q)
  : Issues :=
  let current_kpis := calculate_weekly_kpis self None None in
  let low_q :=
    map k_analyst (filter (fun k => flt_left (KPI_3_Calidad k) threshold_quality)
                          current_kpis) in
  let mean_volume := Qmean (map (fun k => inject_Z (KPI_1_Volumen k)) current_kpis) in
  let low_v :=
    map k_analyst
        (filter (fun k => flt_right (inject_Z (KPI_1_Volumen k)) (fscale (1 # 2) mean_volume))
                current_kpis) in
  mkIssues low_q low_v
    (mkIssueSummary
       (Z.of_nat (List.length current_kpis))
       (Z.of_nat (List.length low_q))
       (Z.of_nat (List.length low_v))
       (fmean (map KPI_3_Calidad current_kpis))
       mean_volume).

End OperationalProcessingKPI.

(* ------------------------------------------------------------------ *)
(** ** Sample tables *)

Module Samples.

(** An order with the columns that the workload and margin methods
    read; the other amounts are 0. *)
Definition order_of (oid analyst supplier : string) (skus : Z) (cost pct : Q) : Order :=
  mkOrder oid analyst supplier skus cost 0 0 pct.

(** Three orders of two analysts, in three complexity bins. *)
Definition workload_orders : list Order :=
  [ order_of "O1" "A2" "S1" 3 (100 # 1) (12 # 1);
    order_of "O2" "A1" "S1" 30 (250 # 1) (8 # 1);
    order_of "O3" "A2" "S2" 60 (350 # 1) (20 # 1) ].

Definition no_workload_row : AnalystWorkloadKPI.WorkloadRow :=
  AnalystWorkloadKPI.mkWorkloadRow "" 0 0 0 [] NaN NaN.

(** One supplier whose only order costs nothing. *)
Definition free_order : list Order :=
  [ order_of "O1" "A1" "S1" 3 (0 # 1) (0 # 1) ].

(** One supplier, two orders. *)
Definition single_supplier_orders : list Order :=
  [ order_of "O1" "A1" "S1" 3 (7 # 1) (10 # 1);
    order_of "O2" "A2" "S1" 8 (5 # 2) (10 # 1) ].

(** Two suppliers with the same purchases: 7 + 3 and 10. *)
Definition two_supplier_orders : list Order :=
  [ order_of "O1" "A1" "S2" 3 (7 # 1) (10 # 1);
    order_of "O2" "A2" "S1" 8 (10 # 1) (10 # 1);
    order_of "O3" "A2" "S2" 8 (3 # 1) (10 # 1) ].

(** The order of the margin example: cost 1000 at a margin of 5%. *)
Definition margin_example_order : Order :=
  order_of "O1" "A1" "S1" 3 (1000 # 1) (5 # 1).

(** One order whose two lines have different categories, the line
    of category B first. *)
Definition tied_skus : list Sku := [ mkSku "SA" "A"; mkSku "SB" "B" ].

Definition tied_lines : list OrderLine :=
  [ mkOrderLine "O1" "SB" 1 (1 # 1) (1 # 1);
    mkOrderLine "O1" "SA" 1 (1 # 1) (1 # 1) ].

(** Two orders of one analyst; only O1 has a line. *)
Definition one_line_orders : list Order :=
  [ order_of "O1" "A1" "S1" 1 (10 # 1) (10 # 1);
    order_of "O2" "A1" "S1" 1 (10 # 1) (10 # 1) ].

Definition one_line_skus : list Sku := [ mkSku "SA" "Cat" ].

Definition one_line_lines : list OrderLine :=
  [ mkOrderLine "O1" "SA" 1 (10 # 1) (10 # 1) ].

(** One invoice, processed in week 2 of 2024. *)
Definition week2_invoices : list OperationalProcessingKPI.Invoice :=
  [ OperationalProcessingKPI.mkInvoice "I1" "A1" false 2 2024 ].

(** Invoices on both sides of a new year: week 51 of 2023 and week 2
    of 2024. *)
Definition new_year_invoices : list OperationalProcessingKPI.Invoice :=
  [ OperationalProcessingKPI.mkInvoice "I1" "A1" false 51 2023;
    OperationalProcessingKPI.mkInvoice "I2" "A1" false 2 2024 ].

Definition no_distribution_row : AnalystWorkloadKPI.DistributionRow :=
  AnalystWorkloadKPI.mkDistributionRow "" 0 NaN NaN None 0 NaN.

Definition no_specialization_row : AnalystWorkloadKPI.SpecializationRow :=
  AnalystWorkloadKPI.mkSpecializationRow "" None NaN 0.

Definition no_opportunity : FinancialPerformanceKPI.Opportunity :=
  FinancialPerformanceKPI.mkOpportunity "" "" 0 0 0 0.

Definition no_tagged_order : AnalystWorkloadKPI.TaggedOrder :=
  AnalystWorkloadKPI.mkTagged (order_of "" "" "" 0 0 0) "" None.

Definition no_kpi_row : OperationalProcessingKPI.KpiRow :=
  OperationalProcessingKPI.mkKpiRow "" 0 0 NaN 0 0.

(** Week 2 of 2024: two invoices of A1, one of them with an error,
    and one invoice of B1; and one invoice of week 1. *)
Definition mixed_invoices : list OperationalProcessingKPI.Invoice :=
  [ OperationalProcessingKPI.mkInvoice "I1" "A1" false 2 2024;
    OperationalProcessingKPI.mkInvoice "I2" "A1" true 2 2024;
    OperationalProcessingKPI.mkInvoice "I3" "B1" false 2 2024;
    OperationalProcessingKPI.mkInvoice "I4" "B1" false 1 2024 ].

End Samples.

(* ================================================================== *)
(** * Properties *)

(* ------------------------------------------------------------------ *)
(** ** Sorting and keys *)

Section SortFacts.

Context {A : Type} (leb : A -> A -> bool).

Lemma insert_by_perm (x : A) (l : list A) :
  Permutation (x :: l) (insert_by leb x l).
Proof.
  induction l as [|y l IH]; simpl.
  - apply Permutation_refl.
  - destruct (leb x y).
    + apply Permutation_refl.
    + eapply perm_trans; [apply perm_swap|].
      now apply perm_skip.
Qed.

Lemma sort_by_perm (l : list A) : Permutation l (sort_by leb l).
Proof.
  induction l as [|x l IH]; simpl.
  - constructor.
  - eapply perm_trans; [apply perm_skip, IH|].
    apply insert_by_perm.
Qed.

Lemma sort_by_In (l : list A) (x : A) : In x (sort_by leb l) <-> In x l.
Proof.
  split; intro H.
  - eapply Permutation_in; [apply Permutation_sym, sort_by_perm | exact H].
  - eapply Permutation_in; [apply sort_by_perm | exact H].
Qed.

Lemma sort_by_NoDup (l : list A) : NoDup l -> NoDup (sort_by leb l).
Proof.
  intro H. eapply Permutation_NoDup; [apply sort_by_perm | exact H].
Qed.

Lemma sort_by_length (l : list A) : List.length (sort_by leb l) = List.length l.
Proof.
  symmetry. apply Permutation_length, sort_by_perm.
Qed.

Hypothesis leb_total : forall a b, leb a b = true \/ leb b a = true.

Lemma insert_by_sorted (x : A) (l : list A) :
  Sorted (le_of leb) l -> Sorted (le_of leb) (insert_by leb x l).
Proof.
  induction l as [|y l IH]; simpl; intro Hs.
  - repeat constructor.
  - destruct (leb x y) eqn:E.
    + constructor; [exact Hs | constructor; exact E].
    + inversion Hs as [|? ? Hs' Hhd]; subst.
      constructor; [now apply IH|].
      destruct l as [|z l]; simpl.
      * constructor. destruct (leb_total x y) as [H|H]; [congruence | exact H].
      * destruct (leb x z).
        -- constructor. destruct (leb_total x y) as [H|H]; [congruence | exact H].
        -- inversion Hhd; subst. now constructor.
Qed.

Lemma sort_by_sorted (l : list A) : Sorted (le_of leb) (sort_by leb l).
Proof.
  induction l as [|x l IH]; simpl.
  - constructor.
  - now apply insert_by_sorted.
Qed.

End SortFacts.

Lemma dedup_In (l : list string) (x : string) : In x (dedup l) <-> In x l.
Proof.
  induction l as [|y l IH]; simpl; [tauto|].
  rewrite filter_In, IH.
  destruct (String.eqb_spec y x) as [->|Hne]; simpl; [tauto|].
  split; [tauto|]. intros [H|H]; [tauto | right; split; [exact H | reflexivity]].
Qed.

Lemma dedup_NoDup (l : list string) : NoDup (dedup l).
Proof.
  induction l as [|y l IH]; simpl; constructor.
  - rewrite filter_In. intros [_ H].
    now rewrite String.eqb_refl in H.
  - now apply NoDup_filter.
Qed.

Lemma sorted_keys_In (l : list string) (x : string) : In x (sorted_keys l) <-> In x l.
Proof.
  unfold sorted_keys. now rewrite sort_by_In, dedup_In.
Qed.

Lemma sorted_keys_NoDup (l : list string) : NoDup (sorted_keys l).
Proof.
  apply sort_by_NoDup, dedup_NoDup.
Qed.

(* ------------------------------------------------------------------ *)
(** ** The complexity classifier *)

Import AnalystWorkloadKPI.

(** The label of every integer, by the position of [n] in the bins. *)
Lemma get_complexity_cases (n : Z) :
  (1 <= n <= 5 /\ get_complexity n = "Muy Simple") \/
  (6 <= n <= 20 /\ get_complexity n = "Simple") \/
  (21 <= n <= 50 /\ get_complexity n = "Moderado") \/
  ((n <= 0 \/ 51 <= n) /\ get_complexity n = "Complejo").
Proof.
  unfold get_complexity, COMPLEXITY_CATEGORIES, get_complexity_in, in_range.
  destruct (Z.leb_spec 1 n), (Z.leb_spec n 5), (Z.leb_spec 6 n), (Z.leb_spec n 20),
    (Z.leb_spec 21 n), (Z.leb_spec n 50), (Z.leb_spec 51 n); simpl;
    first [ left; split; [lia | reflexivity]
          | right; left; split; [lia | reflexivity]
          | right; right; left; split; [lia | reflexivity]
          | right; right; right; split; [lia | reflexivity]
          | exfalso; lia ].
Qed.

(** The weight of every integer, by the position of [n] in the bins. *)
Lemma complexity_weight_cases (n : Z) :
  (1 <= n <= 5 /\ complexity_weight_of n = Some (1 # 1)) \/
  (6 <= n <= 20 /\ complexity_weight_of n = Some (5 # 2)) \/
  (21 <= n <= 50 /\ complexity_weight_of n = Some (5 # 1)) \/
  ((n <= 0 \/ 51 <= n) /\ complexity_weight_of n = Some (10 # 1)).
Proof.
  unfold complexity_weight_of.
  destruct (get_complexity_cases n) as [[H ->]|[[H ->]|[[H ->]|[H ->]]]];
    [left | right; left | right; right; left | right; right; right];
    (split; [exact H | reflexivity]).
Qed.

(** C1: every SKU count [n >= 1] gets the one category of the
    inclusive bin that holds it ([1,5] Muy Simple, [6,20] Simple,
    [21,50] Moderado, [51,inf) Complejo) with the weights 1.0, 2.5,
    5.0 and 10.0, and the weight does not decrease as [n] grows. *)
Theorem classifier_bins_weights_monotone (n : Z) (Hn : 1 <= n) :
  (n <= 5 ->
   get_complexity n = "Muy Simple" /\ complexity_weight_of n = Some (1 # 1)) /\
  (6 <= n <= 20 ->
   get_complexity n = "Simple" /\ complexity_weight_of n = Some (5 # 2)) /\
  (21 <= n <= 50 ->
   get_complexity n = "Moderado" /\ complexity_weight_of n = Some (5 # 1)) /\
  (51 <= n ->
   get_complexity n = "Complejo" /\ complexity_weight_of n = Some (10 # 1)) /\
  (forall m : Z, n <= m ->
   exists w w' : Q,
     complexity_weight_of n = Some w /\ complexity_weight_of m = Some w' /\ (w <= w')%Q).
Proof.
  repeat split.
  1-8: intros;
    try (destruct (get_complexity_cases n) as [[H' E]|[[H' E]|[[H' E]|[H' E]]]];
         (exact E || (exfalso; lia)));
    (destruct (complexity_weight_cases n) as [[H' E]|[[H' E]|[[H' E]|[H' E]]]];
     (exact E || (exfalso; lia))).
  intros m Hm.
  destruct (complexity_weight_cases n) as [[H1 E1]|[[H1 E1]|[[H1 E1]|[H1 E1]]]];
    destruct (complexity_weight_cases m) as [[H2 E2]|[[H2 E2]|[[H2 E2]|[H2 E2]]]];
    try (exfalso; lia);
    rewrite E1, E2; do 2 eexists; (split; [reflexivity|split; [reflexivity|]]);
    unfold Qle; simpl; lia.
Qed.

Lemma classifier_bins_weights_monotone_witness :
  1 <= 20 /\
  get_complexity 20 = "Simple" /\ complexity_weight_of 20 = Some (5 # 2) /\
  exists w w' : Q,
    complexity_weight_of 20 = Some w /\ complexity_weight_of 21 = Some w' /\ (w <= w')%Q.
Proof.
  assert (H : 1 <= 20) by lia.
  destruct (classifier_bins_weights_monotone 20 H) as (_ & Hs & _ & _ & Hm).
  split; [exact H|].
  destruct Hs as [Hc Hw]; [lia|].
  split; [exact Hc|]. split; [exact Hw|].
  apply Hm. lia.
Defined.

(** C10: a non-positive SKU count is not rejected: it falls through
    every bin to the label 'Complejo', of weight 10.0. *)
Theorem classifier_non_positive_is_complejo (n : Z) (Hn : n <= 0) :
  get_complexity n = "Complejo" /\ complexity_weight_of n = Some (10 # 1).
Proof.
  split.
  - destruct (get_complexity_cases n) as [[H E]|[[H E]|[[H E]|[H E]]]];
      (exact E || (exfalso; lia)).
  - destruct (complexity_weight_cases n) as [[H E]|[[H E]|[[H E]|[H E]]]];
      (exact E || (exfalso; lia)).
Qed.

Lemma classifier_non_positive_is_complejo_witness :
  -3 <= 0 /\ get_complexity (-3) = "Complejo" /\ complexity_weight_of (-3) = Some (10 # 1).
Proof.
  split; [lia|].
  apply (classifier_non_positive_is_complejo (-3)); lia.
Defined.

(* ------------------------------------------------------------------ *)
(** ** The workload table *)

Lemma Zsum_map_add {B : Type} (f g : B -> Z) (l : list B) :
  Zsum (map (fun x => f x + g x) l) = Zsum (map f l) + Zsum (map g l).
Proof.
  induction l as [|x l IH]; simpl; [reflexivity|]. rewrite IH. lia.
Qed.

Lemma count_if_cons {B : Type} (p : B -> bool) (x : B) (l : list B) :
  count_if p (x :: l) = (if p x then 1 else 0) + count_if p l.
Proof.
  unfold count_if. simpl. destruct (p x); simpl List.length; lia.
Qed.

Lemma count_if_nonneg {B : Type} (p : B -> bool) (l : list B) : 0 <= count_if p l.
Proof.
  unfold count_if. lia.
Qed.

Lemma count_if_none {B : Type} (p : B -> bool) (l : list B) :
  (forall x, In x l -> p x = false) -> count_if p l = 0.
Proof.
  induction l as [|x l IH]; intro H; [reflexivity|].
  rewrite count_if_cons, (H x (or_introl eq_refl)), IH; [reflexivity|].
  intros y Hy. apply H. now right.
Qed.

(** A key is counted once in a list of distinct keys that holds it. *)
Lemma key_counted_once (k : string) (ks : list string) :
  NoDup ks -> In k ks ->
  Zsum (map (fun c => if String.eqb k c then 1 else 0) ks) = 1.
Proof.
  induction ks as [|c ks IH]; intros Hnd Hin; [contradiction|].
  inversion Hnd as [|? ? Hnotin Hnd']; subst. simpl.
  destruct (String.eqb_spec k c) as [->|Hne].
  - assert (H0 : Zsum (map (fun c0 => if String.eqb c c0 then 1 else 0) ks) = 0).
    { clear IH Hnd Hnd' Hin. induction ks as [|d ks IH]; [reflexivity|]. simpl.
      destruct (String.eqb_spec c d) as [->|_].
      - exfalso. apply Hnotin. now left.
      - rewrite IH; [reflexivity|]. intro H. apply Hnotin. now right. }
    lia.
  - destruct Hin as [H|H]; [congruence|]. rewrite (IH Hnd' H). lia.
Qed.

(** Counting the rows of a group per key, over distinct keys that
    cover the group, counts every row once. *)
Lemma counts_per_key_sum {B : Type} (key : B -> string) (g : list B) (ks : list string) :
  NoDup ks -> (forall r, In r g -> In (key r) ks) ->
  Zsum (map (fun c => count_if (fun r => String.eqb (key r) c) g) ks)
  = Z.of_nat (List.length g).
Proof.
  intros Hnd. induction g as [|r g IH]; intro Hcov.
  - unfold count_if. simpl. clear Hnd Hcov.
    induction ks as [|c ks IHk]; [reflexivity|].
    simpl. now rewrite IHk.
  - erewrite map_ext; [|intro c; apply count_if_cons].
    rewrite Zsum_map_add, IH.
    + rewrite (key_counted_once (key r) ks Hnd (Hcov r (or_introl eq_refl))).
      simpl List.length. lia.
    + intros r' Hr'. apply Hcov. now right.
Qed.

Lemma group_of_tagged (orders_df : list Order) (a : string) :
  group_of (AnalystWorkloadKPI.init orders_df) a
  = AnalystWorkloadKPI.init (filter (fun o => String.eqb (analyst_id o) a) orders_df).
Proof.
  unfold group_of, AnalystWorkloadKPI.init, _categorize_complexity.
  induction orders_df as [|o l IH]; [reflexivity|].
  cbn [map filter order].
  destruct (String.eqb (analyst_id o) a); cbn [map]; now rewrite IH.
Qed.

(** C2: in every row of the workload table the per-category counts
    add up to the analyst's ticket count, which is the number of the
    analyst's orders; a category that none of the analyst's orders
    has is counted 0. *)
Theorem breakdown_sums_to_total_tickets
  (orders_df : list Order) (row : WorkloadRow)
  (Hrow : In row (calculate_workload_by_analyst (AnalystWorkloadKPI.init orders_df))) :
  Zsum (map snd (breakdown row)) = total_tickets row /\
  total_tickets row
  = count_if (fun o => String.eqb (analyst_id o) (w_analyst row)) orders_df /\
  map fst (breakdown row)
  = sorted_keys (map complexity (AnalystWorkloadKPI.init orders_df)) /\
  (forall (c : string) (n : Z),
     In (c, n) (breakdown row) ->
     (forall o, In o orders_df -> analyst_id o = w_analyst row ->
                get_complexity (num_skus o) <> c) ->
     n = 0).
Proof.
  unfold calculate_workload_by_analyst in Hrow.
  apply in_map_iff in Hrow as (a & <- & _). cbn [breakdown total_tickets w_analyst].
  repeat split.
  - rewrite map_map. cbn [snd].
    apply counts_per_key_sum; [apply sorted_keys_NoDup|].
    intros r Hr. apply sorted_keys_In, in_map.
    unfold group_of in Hr. now apply filter_In in Hr.
  - rewrite group_of_tagged. unfold AnalystWorkloadKPI.init, _categorize_complexity, count_if.
    now rewrite length_map.
  - rewrite map_map. cbn [fst]. apply map_id.
  - intros c n Hin Habs.
    apply in_map_iff in Hin as (c' & [= -> <-] & _).
    apply count_if_none. intros r Hr.
    rewrite group_of_tagged in Hr.
    apply in_map_iff in Hr as (o & <- & Ho). cbn [complexity].
    apply filter_In in Ho as [Ho Ha].
    apply String.eqb_eq in Ha.
    apply String.eqb_neq. now apply Habs.
Qed.

Lemma breakdown_sums_to_total_tickets_witness :
  exists row : WorkloadRow,
    In row (calculate_workload_by_analyst (AnalystWorkloadKPI.init Samples.workload_orders)) /\
    Zsum (map snd (breakdown row)) = total_tickets row.
Proof.
  assert (H : In (hd Samples.no_workload_row
                     (calculate_workload_by_analyst
                        (AnalystWorkloadKPI.init Samples.workload_orders)))
                 (calculate_workload_by_analyst
                    (AnalystWorkloadKPI.init Samples.workload_orders)))
    by (vm_compute; left; reflexivity).
  eexists. split; [exact H|].
  apply (breakdown_sums_to_total_tickets Samples.workload_orders _ H).
Defined.

(* ------------------------------------------------------------------ *)
(** ** Rounding and float values *)

Lemma round_half_even_comp (p q : Q) :
  (p == q)%Q -> round_half_even p = round_half_even q.
Proof.
  intro H. unfold round_half_even.
  rewrite (Qfloor_comp _ _ H).
  assert (E : (p - inject_Z (Qfloor q) ?= 1 # 2)%Q = (q - inject_Z (Qfloor q) ?= 1 # 2)%Q)
    by now rewrite H.
  now rewrite E.
Qed.

Lemma round_dec_comp (d : nat) (p q : Q) :
  (p == q)%Q -> round_dec d p = round_dec d q.
Proof.
  intro H. unfold round_dec.
  rewrite (round_half_even_comp (p * inject_Z (10 ^ Z.of_nat d))
                                (q * inject_Z (10 ^ Z.of_nat d))); [reflexivity|].
  now rewrite H.
Qed.

Lemma fround_comp (d : nat) (x : fval) (q : Q) :
  feq x (Fin q) -> fround d x = Fin (round_dec d q).
Proof.
  destruct x as [p| | |]; simpl; try contradiction.
  intro H. now rewrite (round_dec_comp d p q H).
Qed.

Lemma fdiv_finite (a b : Q) : ~ (b == 0)%Q -> fdiv a b = Fin (a / b).
Proof.
  intro H. unfold fdiv.
  destruct (Qeq_bool b 0) eqn:E; [|reflexivity].
  apply Qeq_bool_eq in E. contradiction.
Qed.

(* ------------------------------------------------------------------ *)
(** ** Supplier concentration *)

Lemma filter_all {B : Type} (p : B -> bool) (l : list B) :
  (forall x, In x l -> p x = true) -> filter p l = l.
Proof.
  induction l as [|x l IH]; intro H; [reflexivity|]. simpl.
  rewrite (H x (or_introl eq_refl)), IH; [reflexivity|].
  intros y Hy. apply H. now right.
Qed.

Lemma filter_nothing {B : Type} (p : B -> bool) (l : list B) :
  (forall x, In x l -> p x = false) -> filter p l = [].
Proof.
  induction l as [|x l IH]; intro H; [reflexivity|]. simpl.
  rewrite (H x (or_introl eq_refl)), IH; [reflexivity|].
  intros y Hy. apply H. now right.
Qed.

Lemma dedup_constant (s : string) (l : list string) :
  l <> [] -> (forall x, In x l -> x = s) -> dedup l = [s].
Proof.
  induction l as [|x l IH]; intros Hne Hall; [congruence|].
  simpl. rewrite (Hall x (or_introl eq_refl)). f_equal.
  apply filter_nothing. intros y Hy.
  apply (proj1 (dedup_In _ _)) in Hy. rewrite (Hall y (or_intror Hy)).
  now rewrite String.eqb_refl.
Qed.

(** A list of distinct keys that holds exactly [a] and [b]. *)
Lemma two_keys (a b : string) (l : list string) :
  a <> b -> NoDup l -> (forall x, In x l <-> x = a \/ x = b) ->
  l = [a; b] \/ l = [b; a].
Proof.
  intros Hab Hnd Hin.
  destruct l as [|x [|y [|z l]]].
  - exfalso. apply (proj2 (Hin a)). now left.
  - exfalso.
    assert (Ha : In a [x]) by (apply Hin; now left).
    assert (Hb : In b [x]) by (apply Hin; now right).
    simpl in Ha, Hb. destruct Ha as [Ha|[]], Hb as [Hb|[]]. congruence.
  - assert (Hx : x = a \/ x = b) by (apply Hin; now left).
    assert (Hy : y = a \/ y = b) by (apply Hin; right; now left).
    inversion Hnd as [|? ? Hnx _]; subst.
    assert (x <> y) by (intro; subst; apply Hnx; now left).
    destruct Hx as [->| ->], Hy as [->| ->]; try congruence; auto.
  - exfalso.
    assert (Hx : x = a \/ x = b) by (apply Hin; now left).
    assert (Hy : y = a \/ y = b) by (apply Hin; right; now left).
    assert (Hz : z = a \/ z = b) by (apply Hin; right; right; now left).
    inversion Hnd as [|? ? Hnx Hnd']; subst.
    inversion Hnd' as [|? ? Hny _]; subst.
    assert (x <> y) by (intro; subst; apply Hnx; now left).
    assert (x <> z) by (intro; subst; apply Hnx; right; now left).
    assert (y <> z) by (intro; subst; apply Hny; now left).
    destruct Hx as [->| ->], Hy as [->| ->], Hz as [->| ->]; congruence.
Qed.

Import FinancialPerformanceKPI.

Lemma Qsum_cons (x : Q) (l : list Q) : Qsum (x :: l) = (x + Qsum l)%Q.
Proof. reflexivity. Qed.

(** With two suppliers, the purchases are those of the one plus
    those of the other. *)
Lemma purchases_split (s1 s2 : string) (orders : list Order) :
  s1 <> s2 ->
  (forall o, In o orders -> supplier_id o = s1 \/ supplier_id o = s2) ->
  (Qsum (map total_cost orders)
   == Qsum (map total_cost (filter (fun o => String.eqb (supplier_id o) s1) orders))
      + Qsum (map total_cost (filter (fun o => String.eqb (supplier_id o) s2) orders)))%Q.
Proof.
  intros Hne. induction orders as [|o l IH]; intro Hall.
  - simpl. reflexivity.
  - assert (IH' := IH (fun o' Ho' => Hall o' (or_intror Ho'))).
    cbn [map filter].
    destruct (Hall o (or_introl eq_refl)) as [E|E]; rewrite E, String.eqb_refl.
    + destruct (String.eqb_spec s1 s2) as [|_]; [contradiction|].
      cbn [map]. rewrite !Qsum_cons, IH'. ring.
    + destruct (String.eqb_spec s2 s1) as [|_]; [congruence|].
      cbn [map]. rewrite !Qsum_cons, IH'. ring.
Qed.

Lemma Qsum_nonzero_nonempty (l : list Q) : ~ (Qsum l == 0)%Q -> l <> [].
Proof.
  intros H ->. apply H. reflexivity.
Qed.

Lemma supplier_purchases_single
  (orders : list Order) (lines : option (list OrderLine)) (s : string) :
  orders <> [] -> (forall o, In o orders -> supplier_id o = s) ->
  supplier_purchases (init orders lines) = [(s, Qsum (map total_cost orders))].
Proof.
  intros Hne Hall. unfold supplier_purchases, sorted_keys, group_cost.
  cbn [orders_df init].
  rewrite (dedup_constant s).
  - cbn [sort_by fold_right insert_by map].
    rewrite filter_all; [reflexivity|].
    intros o Ho. rewrite (Hall o Ho). apply String.eqb_refl.
  - destruct orders; [congruence | discriminate].
  - intros x Hx. apply in_map_iff in Hx as (o & <- & Ho). now apply Hall.
Qed.

Lemma supplier_purchases_two
  (orders : list Order) (lines : option (list OrderLine)) (s1 s2 : string) :
  s1 <> s2 ->
  (forall o, In o orders -> supplier_id o = s1 \/ supplier_id o = s2) ->
  ~ (group_cost (init orders lines) s1 == 0)%Q ->
  ~ (group_cost (init orders lines) s2 == 0)%Q ->
  let c1 := group_cost (init orders lines) s1 in
  let c2 := group_cost (init orders lines) s2 in
  supplier_purchases (init orders lines) = [(s1, c1); (s2, c2)] \/
  supplier_purchases (init orders lines) = [(s2, c2); (s1, c1)].
Proof.
  intros Hne Hall H1 H2 c1 c2.
  assert (Hex : forall s, ~ (group_cost (init orders lines) s == 0)%Q ->
                          In s (map supplier_id orders)).
  { intros s Hs. unfold group_cost in Hs. cbn [orders_df init] in Hs.
    destruct (filter (fun o => String.eqb (supplier_id o) s) orders) as [|o l] eqn:E.
    - exfalso. apply Hs. reflexivity.
    - assert (Ho : In o (filter (fun o => String.eqb (supplier_id o) s) orders))
        by (rewrite E; now left).
      apply filter_In in Ho as [Ho Hs']. apply String.eqb_eq in Hs'. subst s.
      now apply in_map. }
  assert (Hkeys : sorted_keys (map supplier_id orders) = [s1; s2] \/
                  sorted_keys (map supplier_id orders) = [s2; s1]).
  { apply two_keys; [exact Hne | apply sorted_keys_NoDup |].
    intro x. rewrite sorted_keys_In. split.
    - intro Hx. apply in_map_iff in Hx as (o & <- & Ho). now apply Hall.
    - intros [->| ->]; now apply Hex. }
  unfold supplier_purchases. cbn [orders_df init].
  fold c1 c2.
  destruct Hkeys as [-> | ->]; cbn [map sort_by fold_right insert_by snd];
    destruct (Qle_bool _ _); auto.
Qed.

(** Two equal purchases are two shares of 50 percent. *)
Lemma two_equal_shares (c1 c2 : Q) :
  ~ (c1 == 0)%Q -> (c1 == c2)%Q ->
  feq (fsum_skipna
         [ fsquare (fscale 100 (fdiv c1 (c1 + (c2 + 0))));
           fsquare (fscale 100 (fdiv c2 (c1 + (c2 + 0)))) ])
      (Fin 5000).
Proof.
  intros H1 Heq.
  assert (Ht : ~ (c1 + (c2 + 0) == 0)%Q).
  { intro H. apply H1.
    assert (E : (c1 + c1 == 0)%Q).
    { apply (Qeq_trans _ (c1 + (c2 + 0))%Q); [|exact H].
      apply Qplus_comp; [reflexivity|].
      apply (Qeq_trans _ c2); [exact Heq | ring]. }
    apply (Qeq_trans _ ((c1 + c1) / 2)%Q); [field|].
    apply (Qeq_trans _ (0 / 2)%Q); [|reflexivity].
    apply Qdiv_comp; [exact E | reflexivity]. }
  rewrite !fdiv_finite by exact Ht.
  cbn [feq fsum_skipna filter negb is_nan fold_left fadd fsquare fscale].
  apply (Qeq_trans _ (0 + c1 / (c1 + (c1 + 0)) * 100 * (c1 / (c1 + (c1 + 0)) * 100)
                      + c1 / (c1 + (c1 + 0)) * 100 * (c1 / (c1 + (c1 + 0)) * 100))%Q).
  - repeat (first [apply Qplus_comp | apply Qmult_comp | apply Qinv_comp
                  | reflexivity | exact Heq | now apply Qeq_sym]).
  - field. intro H. apply H1.
    apply (Qeq_trans _ ((c1 + c1) / 2)%Q); [field|].
    apply (Qeq_trans _ (0 / 2)%Q); [|reflexivity].
    apply Qdiv_comp; [exact H | reflexivity].
Qed.

(** On a table with rows the method returns its dict. *)
Lemma concentration_risk_returns (orders : list Order) (lines : option (list OrderLine)) :
  orders <> [] ->
  calculate_concentration_risk (init orders lines)
  = Return (concentration_dict (init orders lines)).
Proof.
  unfold calculate_concentration_risk. cbn [orders_df init].
  destruct orders; [congruence | reflexivity].
Qed.

(** C3 (amended): the HHI is the sum over the suppliers of the
    squared percentage shares; when the total cost is not zero, it is
    10000 for orders that all belong to one supplier and 5000 for
    orders of two suppliers with equal purchases, before and after the
    rounding to two decimals. *)
Theorem hhi_one_supplier_and_two_equal_suppliers
  (orders : list Order) (lines : option (list OrderLine))
  (Htotal : ~ (Qsum (map total_cost orders) == 0)%Q) :
  hhi (init orders lines)
  = fsum_skipna
      (map (fun sp => fsquare (fscale 100 (fdiv (snd sp) (total_purchases (init orders lines)))))
           (supplier_purchases (init orders lines))) /\
  (forall s : string,
     (forall o, In o orders -> supplier_id o = s) ->
     feq (hhi (init orders lines)) (Fin 10000) /\
     exists r, calculate_concentration_risk (init orders lines) = Return r /\
               feq (hhi_index r) (Fin 10000)) /\
  (forall s1 s2 : string,
     s1 <> s2 ->
     (forall o, In o orders -> supplier_id o = s1 \/ supplier_id o = s2) ->
     (group_cost (init orders lines) s1 == group_cost (init orders lines) s2)%Q ->
     feq (hhi (init orders lines)) (Fin 5000) /\
     exists r, calculate_concentration_risk (init orders lines) = Return r /\
               feq (hhi_index r) (Fin 5000)).
Proof.
  split; [reflexivity|]. split.
  - intros s Hall.
    assert (Hne : orders <> []) by (intros ->; apply Htotal; reflexivity).
    assert (Hh : feq (hhi (init orders lines)) (Fin 10000)).
    { unfold hhi, market_shares, total_purchases.
      rewrite (supplier_purchases_single orders lines s Hne Hall).
      cbn [map snd Qsum fold_right].
      rewrite fdiv_finite by (intro H; apply Htotal; rewrite <- H; ring).
      cbn [feq fsum_skipna filter negb is_nan fold_left fadd fsquare fscale].
      field. intro H; apply Htotal; rewrite <- H; ring. }
    split; [exact Hh|].
    exists (concentration_dict (init orders lines)).
    split; [now apply concentration_risk_returns|].
    cbn [concentration_dict hhi_index].
    rewrite (fround_comp 2 _ _ Hh). vm_compute. reflexivity.
  - intros s1 s2 Hne Hall Heq.
    pose proof (purchases_split s1 s2 orders Hne Hall) as Hsplit.
    fold (group_cost (init orders lines) s1) in Hsplit.
    fold (group_cost (init orders lines) s2) in Hsplit.
    set (c1 := group_cost (init orders lines) s1) in *.
    set (c2 := group_cost (init orders lines) s2) in *.
    assert (H1 : ~ (c1 == 0)%Q).
    { intro H. apply Htotal.
      apply (Qeq_trans _ _ _ Hsplit).
      apply (Qeq_trans _ (c1 + c1)%Q).
      - apply Qplus_comp; [reflexivity | now apply Qeq_sym].
      - apply (Qeq_trans _ (0 + 0)%Q); [now apply Qplus_comp | reflexivity]. }
    assert (H2 : ~ (c2 == 0)%Q).
    { intro H. apply H1. now apply (Qeq_trans _ c2). }
    assert (Hrows : orders <> []) by (intros ->; apply Htotal; reflexivity).
    assert (Hh : feq (hhi (init orders lines)) (Fin 5000)).
    { unfold hhi, market_shares, total_purchases.
      destruct (supplier_purchases_two orders lines s1 s2 Hne Hall H1 H2) as [-> | ->];
        fold c1 c2; cbn [map snd Qsum fold_right].
      - now apply two_equal_shares.
      - apply two_equal_shares; [exact H2 | now apply Qeq_sym]. }
    split; [exact Hh|].
    exists (concentration_dict (init orders lines)).
    split; [now apply concentration_risk_returns|].
    cbn [concentration_dict hhi_index].
    rewrite (fround_comp 2 _ _ Hh). vm_compute. reflexivity.
Qed.

Lemma hhi_one_supplier_and_two_equal_suppliers_witness :
  (~ (Qsum (map total_cost Samples.single_supplier_orders) == 0)%Q /\
   exists r,
     calculate_concentration_risk (init Samples.single_supplier_orders None) = Return r /\
     feq (hhi_index r) (Fin 10000)) /\
  (~ (Qsum (map total_cost Samples.two_supplier_orders) == 0)%Q /\
   exists r,
     calculate_concentration_risk (init Samples.two_supplier_orders None) = Return r /\
     feq (hhi_index r) (Fin 5000)).
Proof.
  assert (H1 : ~ (Qsum (map total_cost Samples.single_supplier_orders) == 0)%Q)
    by (vm_compute; discriminate).
  assert (H2 : ~ (Qsum (map total_cost Samples.two_supplier_orders) == 0)%Q)
    by (vm_compute; discriminate).
  split; (split; [assumption|]).
  - destruct (hhi_one_supplier_and_two_equal_suppliers
                Samples.single_supplier_orders None H1) as (_ & Hone & _).
    refine (proj2 (Hone "S1" _)).
    intros o Ho. simpl in Ho. destruct Ho as [<-|[<-|[]]]; reflexivity.
  - destruct (hhi_one_supplier_and_two_equal_suppliers
                Samples.two_supplier_orders None H2) as (_ & _ & Htwo).
    refine (proj2 (Htwo "S1" "S2" _ _ _)).
    + discriminate.
    + intros o Ho. simpl in Ho.
      destruct Ho as [<-|[<-|[<-|[]]]]; simpl; auto.
    + vm_compute. reflexivity.
Defined.

(** C3, as stated, fails: one supplier whose orders cost 0 has the
    share 0/0, which the sum skips, and the HHI is 0. *)
Lemma hhi_single_supplier_zero_cost_counterexample :
  (forall o, In o Samples.free_order -> supplier_id o = "S1") /\
  hhi (init Samples.free_order None) = Fin 0 /\
  exists r,
    calculate_concentration_risk (init Samples.free_order None) = Return r /\
    feq (hhi_index r) (Fin 0) /\
    ~ feq (hhi_index r) (Fin 10000).
Proof.
  split; [|split].
  - intros o Ho. simpl in Ho. destruct Ho as [<-|[]]. reflexivity.
  - vm_compute. reflexivity.
  - eexists. split; [reflexivity|]. split; vm_compute; [reflexivity | discriminate].
Qed.

(* ------------------------------------------------------------------ *)
(** ** Margin opportunities *)

Lemma Qlt_bool_iff (a b : Q) : Qlt_bool a b = true <-> (a < b)%Q.
Proof.
  unfold Qlt_bool. rewrite negb_true_iff. split.
  - intro H. apply Qnot_le_lt. intro Hle.
    apply Qle_bool_iff in Hle. congruence.
  - intro H. destruct (Qle_bool b a) eqn:E; [|reflexivity].
    apply Qle_bool_iff in E. exfalso. now apply (Qlt_not_le a b).
Qed.

Lemma by_potential_desc_total (a b : Opportunity) :
  by_potential_desc a b = true \/ by_potential_desc b a = true.
Proof.
  unfold by_potential_desc.
  destruct (Qlt_le_dec (potential_additional_margin a) (potential_additional_margin b))
    as [H|H].
  - right. apply Qle_bool_iff. now apply Qlt_le_weak.
  - left. now apply Qle_bool_iff.
Qed.

Lemma Sorted_weaken {B : Type} (R R' : B -> B -> Prop) (l : list B) :
  (forall a b, R a b -> R' a b) -> Sorted R l -> Sorted R' l.
Proof.
  intros HR. induction 1 as [|x l Hs IH Hhd]; constructor; [exact IH|].
  destruct Hhd; constructor. now apply HR.
Qed.

(** C6: the result holds exactly the orders whose margin percentage
    is strictly below the threshold, each with improvement_potential =
    T - margin_pct and potential_additional_margin = total_cost *
    improvement_potential / 100, in descending order of
    potential_additional_margin; cost 1000 at a margin of 5 under the
    threshold 15 gives 10 and 100. *)
Theorem margin_opportunities_selected_and_sorted
  (orders : list Order) (lines : option (list OrderLine)) (T : Q) :
  Permutation
    (identify_margin_opportunities (init orders lines) T)
    (map (opportunity_of T) (filter (fun o => Qlt_bool (margin_pct o) T) orders)) /\
  (forall o : Order,
     In o (filter (fun o => Qlt_bool (margin_pct o) T) orders)
     <-> In o orders /\ (margin_pct o < T)%Q) /\
  (forall o : Order,
     op_order_id (opportunity_of T o) = order_id o /\
     op_total_cost (opportunity_of T o) = total_cost o /\
     op_margin_pct (opportunity_of T o) = margin_pct o /\
     improvement_potential (opportunity_of T o) = (T - margin_pct o)%Q /\
     potential_additional_margin (opportunity_of T o)
     = (total_cost o * improvement_potential (opportunity_of T o) / 100)%Q) /\
  Sorted (fun a b => (potential_additional_margin b <= potential_additional_margin a)%Q)
         (identify_margin_opportunities (init orders lines) T) /\
  (exists r : Opportunity,
     identify_margin_opportunities (init [Samples.margin_example_order] lines) 15 = [r] /\
     (improvement_potential r == 10)%Q /\
     (potential_additional_margin r == 100)%Q).
Proof.
  unfold identify_margin_opportunities. cbn [orders_df init].
  repeat split.
  - apply Permutation_sym, sort_by_perm.
  - now apply filter_In in H.
  - apply filter_In in H as [_ H]. now apply Qlt_bool_iff.
  - intros [H1 H2]. apply filter_In. split; [exact H1 | now apply Qlt_bool_iff].
  - apply (Sorted_weaken (le_of by_potential_desc)).
    + intros a b H. now apply Qle_bool_iff.
    + apply sort_by_sorted, by_potential_desc_total.
  - eexists. split; [reflexivity|]. split; vm_compute; reflexivity.
Qed.

(* ------------------------------------------------------------------ *)
(** ** The order of strings *)

Lemma ascii_compare_lt_trans (a b c : ascii) :
  Ascii.compare a b = Lt -> Ascii.compare b c = Lt -> Ascii.compare a c = Lt.
Proof.
  unfold Ascii.compare. rewrite !N.compare_lt_iff. apply N.lt_trans.
Qed.

Lemma string_compare_lt_trans (s1 s2 s3 : string) :
  String.compare s1 s2 = Lt -> String.compare s2 s3 = Lt -> String.compare s1 s3 = Lt.
Proof.
  revert s2 s3.
  induction s1 as [|a s1 IH]; intros [|b s2] [|c s3]; simpl; try congruence.
  destruct (Ascii.compare a b) eqn:Eab; try discriminate;
    destruct (Ascii.compare b c) eqn:Ebc; try discriminate; intros H1 H2.
  - apply Ascii.compare_eq_iff in Eab, Ebc. subst.
    unfold Ascii.compare. rewrite N.compare_refl. now apply (IH s2).
  - apply Ascii.compare_eq_iff in Eab. subst. now rewrite Ebc.
  - apply Ascii.compare_eq_iff in Ebc. subst. now rewrite Eab.
  - now rewrite (ascii_compare_lt_trans a b c).
Qed.

Lemma string_leb_trans (s1 s2 s3 : string) :
  String.leb s1 s2 = true -> String.leb s2 s3 = true -> String.leb s1 s3 = true.
Proof.
  unfold String.leb.
  destruct (String.compare s1 s2) eqn:E12; try discriminate;
    destruct (String.compare s2 s3) eqn:E23; try discriminate; intros _ _.
  - apply String.compare_eq_iff in E12. subst. now rewrite E23.
  - apply String.compare_eq_iff in E12. subst. now rewrite E23.
  - apply String.compare_eq_iff in E23. subst. now rewrite E12.
  - now rewrite (string_compare_lt_trans s1 s2 s3).
Qed.

Lemma string_leb_refl (s : string) : String.leb s s = true.
Proof.
  destruct (String.leb_total s s) as [H|H]; exact H.
Qed.

(** The head of a sorted list of keys is its least key. *)
Lemma sorted_hd_least (l : list string) (d : string) (x : string) :
  In x l -> String.leb (hd d (sort_by String.leb l)) x = true.
Proof.
  assert (Hins : forall (y : string) (s : list string) (z : string),
             (forall x, In x s -> String.leb (hd d s) x = true) ->
             In z (y :: s) -> String.leb (hd d (insert_by String.leb y s)) z = true).
  { intros y [|h s] z Hs Hz.
    - simpl in *. destruct Hz as [->|[]]. apply string_leb_refl.
    - simpl insert_by. destruct (String.leb y h) eqn:E; simpl hd.
      + destruct Hz as [->|Hz]; [apply string_leb_refl|].
        apply (string_leb_trans y h z E). now apply Hs.
      + destruct Hz as [->|Hz]; [|now apply Hs].
        destruct (String.leb_total h z) as [H|H]; [exact H | congruence]. }
  revert x. induction l as [|y l IH]; intros x Hx; [contradiction|].
  simpl sort_by. apply Hins.
  - intros z Hz. apply IH. now apply sort_by_In in Hz.
  - destruct Hx as [->|Hx]; [now left | right; now apply sort_by_In].
Qed.

(* ------------------------------------------------------------------ *)
(** ** The dominant category of an order *)

Lemma occurrences_pos (k : string) (x : list string) : In k x -> 1 <= occurrences k x.
Proof.
  unfold occurrences. induction x as [|y x IH]; intro H; [contradiction|].
  rewrite count_if_cons.
  pose proof (count_if_nonneg (String.eqb k) x).
  destruct (String.eqb_spec k y) as [->|Hne]; [lia|].
  destruct H as [H|H]; [congruence|]. specialize (IH H). lia.
Qed.

Lemma fold_max_ge {B : Type} (f : B -> Z) (l : list B) (k : B) :
  In k l -> f k <= fold_right Z.max 0 (map f l).
Proof.
  induction l as [|y l IH]; intro H; [contradiction|]. simpl.
  destruct H as [->|H]; [lia|]. specialize (IH H). lia.
Qed.

Lemma fold_max_attained {B : Type} (f : B -> Z) (l : list B) :
  l <> [] -> (forall k, In k l -> 0 <= f k) ->
  exists k, In k l /\ f k = fold_right Z.max 0 (map f l).
Proof.
  induction l as [|y l IH]; intros Hne Hpos; [congruence|]. simpl.
  destruct l as [|z l].
  - exists y. split; [now left|]. simpl. specialize (Hpos y (or_introl eq_refl)). lia.
  - destruct IH as (k & Hk & Ek); [discriminate | intros; apply Hpos; now right|].
    destruct (Z.le_gt_cases (f y) (fold_right Z.max 0 (map f (z :: l)))) as [Hle|Hgt].
    + exists k. split; [now right|]. rewrite Ek. lia.
    + exists y. split; [now left|]. lia.
Qed.

Lemma series_mode_In (x : list string) (c : string) :
  In c (series_mode x) <-> In c x /\ occurrences c x = top_count x.
Proof.
  unfold series_mode. rewrite sort_by_In, filter_In, dedup_In, Z.eqb_eq. tauto.
Qed.

Lemma series_mode_nonempty (x : list string) : x <> [] -> series_mode x <> [].
Proof.
  intros Hne Hmode.
  destruct (fold_max_attained (fun k => occurrences k x) (dedup x)) as (k & Hk & Ek).
  - destruct x as [|y x]; [congruence | discriminate].
  - intros k _. apply count_if_nonneg.
  - assert (H : In k (series_mode x))
      by (apply series_mode_In; split; [exact (proj1 (dedup_In x k) Hk) | exact Ek]).
    rewrite Hmode in H. contradiction.
Qed.

(** The dominant category of a non-empty group: a most frequent
    category, and the least of them in the order of strings. *)
Lemma dominant_least_mode (x : list string) :
  x <> [] ->
  In (dominant x) x /\
  (forall c', In c' x -> occurrences c' x <= occurrences (dominant x) x) /\
  (forall c', In c' x -> occurrences c' x = occurrences (dominant x) x ->
              String.leb (dominant x) c' = true).
Proof.
  intro Hne. unfold dominant.
  assert (Hlen : (0 <? Z.of_nat (List.length x)) = true)
    by (destruct x; [congruence | reflexivity]).
  rewrite Hlen.
  assert (Hhd : In (hd "" (series_mode x)) (series_mode x)).
  { pose proof (series_mode_nonempty x Hne) as H.
    destruct (series_mode x); [congruence | now left]. }
  apply series_mode_In in Hhd as [Hin Htop].
  split; [exact Hin|]. split.
  - intros c' Hc'. rewrite Htop. unfold top_count.
    apply (fold_max_ge (fun k => occurrences k x)). exact (proj2 (dedup_In x c') Hc').
  - intros c' Hc' Heq. unfold series_mode. apply sorted_hd_least.
    apply filter_In. split; [exact (proj2 (dedup_In x c') Hc')|].
    apply Z.eqb_eq. congruence.
Qed.

(** C9 (amended): when the categories of an order's joined lines are
    tied for most frequent, the dominant category of the order is the
    least of the tied categories in the ascending order of strings. *)
Theorem dominant_category_is_least_of_tied
  (skus_df : list Sku) (order_lines_df : list OrderLine) (oid c : string)
  (Hrow : In (oid, c) (dominant_by_order (merge_sku_category order_lines_df skus_df))) :
  let x := map snd (filter (fun r => String.eqb (line_order_id (fst r)) oid)
                           (merge_sku_category order_lines_df skus_df)) in
  In c x /\
  (forall c', In c' x -> occurrences c' x <= occurrences c x) /\
  (forall c', In c' x -> occurrences c' x = occurrences c x -> String.leb c c' = true).
Proof.
  intro x. unfold dominant_by_order in Hrow.
  apply in_map_iff in Hrow as (oid' & [= -> <-] & Hkey).
  fold x. apply dominant_least_mode.
  apply sorted_keys_In, in_map_iff in Hkey as (r & Hr & Hin).
  intro Hnil.
  assert (H : In (snd r) x).
  { unfold x. apply in_map, filter_In. split; [exact Hin|].
    rewrite Hr. apply String.eqb_refl. }
  rewrite Hnil in H. contradiction.
Qed.

Lemma dominant_category_is_least_of_tied_witness :
  In ("O1", "A")
     (dominant_by_order (merge_sku_category Samples.tied_lines Samples.tied_skus)) /\
  String.leb "A" "B" = true.
Proof.
  assert (H : In ("O1", "A")
                 (dominant_by_order
                    (merge_sku_category Samples.tied_lines Samples.tied_skus)))
    by (vm_compute; left; reflexivity).
  split; [exact H|].
  destruct (dominant_category_is_least_of_tied
              Samples.tied_skus Samples.tied_lines "O1" "A" H) as (_ & _ & Hleast).
  apply Hleast.
  - vm_compute. left. reflexivity.
  - vm_compute. reflexivity.
Defined.

(** C9, as stated, fails: the joined lines of O1 have the categories
    B then A, one each; the first one encountered is B and the
    dominant category is A. *)
Lemma dominant_category_first_encountered_counterexample :
  map snd (merge_sku_category Samples.tied_lines Samples.tied_skus) = ["B"; "A"] /\
  first_encountered_mode ["B"; "A"] = Some "B" /\
  dominant_by_order (merge_sku_category Samples.tied_lines Samples.tied_skus)
  = [("O1", "A")] /\
  Some (dominant ["B"; "A"]) <> first_encountered_mode ["B"; "A"].
Proof.
  repeat split; try reflexivity. vm_compute. discriminate.
Qed.

(* ------------------------------------------------------------------ *)
(** ** Orders without matched lines *)

(** The join back onto the orders keeps only the orders that have a
    joined line. *)
Lemma unmatched_order_absent
  (self : list TaggedOrder) (skus_df : list Sku) (order_lines_df : list OrderLine)
  (o : TaggedOrder) (c : string) :
  (forall r, In r (merge_sku_category order_lines_df skus_df) ->
             line_order_id (fst r) <> order_id (order o)) ->
  ~ In (o, c)
       (orders_with_category self
          (dominant_by_order (merge_sku_category order_lines_df skus_df))).
Proof.
  intros Hnone Hin. unfold orders_with_category in Hin.
  apply in_flat_map in Hin as (o' & _ & Hin).
  apply in_map_iff in Hin as (d & [= -> _] & Hd).
  apply filter_In in Hd as [Hd Hid]. apply String.eqb_eq in Hid.
  unfold dominant_by_order in Hd.
  apply in_map_iff in Hd as (oid & <- & Hkey). cbn [fst] in Hid.
  apply sorted_keys_In, in_map_iff in Hkey as (r & Hr & Hrin).
  apply (Hnone r Hrin). congruence.
Qed.

(** C5: on two orders of analyst A1 of which only O1 has a line, the
    series of dominant categories has no entry for O2, O2 is absent
    from the join, and the distribution of A1 counts one order and
    has no column 'Sin categoría'. *)
Theorem order_without_lines_is_dropped :
  dominant_by_order (merge_sku_category Samples.one_line_lines Samples.one_line_skus)
  = [("O1", "Cat")] /\
  map (fun r => (order_id (order (fst r)), snd r))
      (orders_with_category
         (AnalystWorkloadKPI.init Samples.one_line_orders)
         (dominant_by_order
            (merge_sku_category Samples.one_line_lines Samples.one_line_skus)))
  = [("O1", "Cat")] /\
  category_dist
    (orders_with_category
       (AnalystWorkloadKPI.init Samples.one_line_orders)
       (dominant_by_order
          (merge_sku_category Samples.one_line_lines Samples.one_line_skus)))
  = [("A1", [("Cat", 1)])] /\
  map (fun r => (s_analyst r, primary_category r, categories_handled r))
      (identify_specialization
         (AnalystWorkloadKPI.init Samples.one_line_orders)
         Samples.one_line_skus Samples.one_line_lines)
  = [("A1", Some "Cat", 1)].
Proof.
  repeat split; vm_compute; reflexivity.
Qed.

(* ------------------------------------------------------------------ *)
(** ** The category analysis without order lines *)

(** C7: on an instance constructed without order lines,
    [analyze_by_category] raises a [ValueError] whose message names
    [order_lines_df], whatever the SKU table. *)
Theorem analyze_by_category_requires_order_lines
  (orders : list Order) (skus_df : list Sku) :
  analyze_by_category (init orders None) skus_df
  = Raise (ValueError "Se requiere order_lines_df para análisis por categoría") /\
  (forall rows, analyze_by_category (init orders None) skus_df <> Return rows) /\
  exists before after : string,
    "Se requiere order_lines_df para análisis por categoría"
    = before ++ "order_lines_df" ++ after.
Proof.
  split; [reflexivity|]. split.
  - intros rows. discriminate.
  - exists "Se requiere ", " para análisis por categoría". reflexivity.
Qed.

(* ------------------------------------------------------------------ *)
(** ** The periods of the trend *)

Import OperationalProcessingKPI.

(** With int64 arithmetic: the period visited at index [i], before
    and after the wrap to the prior year. *)
Lemma trend_period_int64_cases (max_week max_year i : Z) :
  (i < max_week /\
   trend_period Int64Promotion max_week max_year i = (max_week - i, max_year)) \/
  (max_week <= i /\
   trend_period Int64Promotion max_week max_year i = (max_week - i + 52, max_year - 1)).
Proof.
  unfold trend_period, week_sub. destruct (Z.ltb_spec (max_week - i) 1); [right | left];
    (split; [lia | reflexivity]).
Qed.

(** With uint32 arithmetic the difference is never negative: only the
    difference 0 takes the branch [week_num < 1]. *)
Lemma trend_period_uint32_cases (max_week max_year i : Z) :
  ((max_week - i) mod 2 ^ 32 = 0 /\
   trend_period UInt32Wrap max_week max_year i = (52, max_year - 1)) \/
  (1 <= (max_week - i) mod 2 ^ 32 < 2 ^ 32 /\
   trend_period UInt32Wrap max_week max_year i = ((max_week - i) mod 2 ^ 32, max_year)).
Proof.
  unfold trend_period, week_sub.
  pose proof (Z.mod_pos_bound (max_week - i) (2 ^ 32) ltac:(reflexivity)) as Hb.
  destruct (Z.ltb_spec ((max_week - i) mod 2 ^ 32) 1) as [H|H].
  - left. assert (E : (max_week - i) mod 2 ^ 32 = 0) by lia.
    split; [exact E|]. now rewrite E.
  - right. split; [lia | reflexivity].
Qed.

(** Within one wrap the week stays positive, with either
    arithmetic. *)
Lemma trend_period_week_positive (arith : week_arith) (max_week max_year i : Z) :
  0 <= i < max_week + 52 -> 1 <= fst (trend_period arith max_week max_year i).
Proof.
  intro H. destruct arith.
  - destruct (trend_period_int64_cases max_week max_year i) as [[Hi ->]|[Hi ->]];
      cbn [fst]; lia.
  - destruct (trend_period_uint32_cases max_week max_year i) as [[Hi ->]|[Hi ->]];
      cbn [fst]; lia.
Qed.

(** What [trend_periods] returns when it returns. *)
Lemma trend_periods_some
  (arith : week_arith) (self : list Invoice) (weeks : nat) (periods : list (Z * Z)) :
  trend_periods arith self weeks = Some periods ->
  exists max_week max_year,
    Zmax_list (map week self) = Some max_week /\
    Zmax_list (map year self) = Some max_year /\
    periods = map (fun i => trend_period arith max_week max_year (Z.of_nat i)) (seq 0 weeks) /\
    (arith = UInt32Wrap -> Z.of_nat weeks <= 2 ^ 32).
Proof.
  unfold trend_periods. intro H.
  destruct (Zmax_list (map week self)) as [mw|]; [|discriminate].
  destruct (Zmax_list (map year self)) as [my|]; [|discriminate].
  exists mw, my. destruct arith.
  - injection H as <-. repeat split. discriminate.
  - destruct (Z.ltb_spec (2 ^ 32) (Z.of_nat weeks)) as [Hlt|Hle]; [discriminate|].
    injection H as <-. repeat split. intros _. exact Hle.
Qed.

(** Four periods from week 2 of 2024, with int64 arithmetic. *)
Lemma trend_four_periods_from_week_two :
  trend_periods Int64Promotion Samples.week2_invoices 4
  = Some [(2, 2024); (1, 2024); (52, 2023); (51, 2023)].
Proof. reflexivity. Qed.

(** Four periods from week 2 of 2024, with uint32 arithmetic: the
    fourth difference, 2 - 3, wraps around. *)
Lemma trend_four_periods_from_week_two_uint32 :
  trend_periods UInt32Wrap Samples.week2_invoices 4
  = Some [(2, 2024); (1, 2024); (52, 2023); (4294967295, 2024)].
Proof. vm_compute. reflexivity. Qed.

(** With int64 arithmetic the 55th turn from week 2 visits week 0. *)
Lemma trend_int64_visits_week_zero :
  exists periods,
    trend_periods Int64Promotion Samples.week2_invoices 55 = Some periods /\
    nth_error periods 54 = Some (0, 2023).
Proof.
  eexists. split; [reflexivity|]. vm_compute. reflexivity.
Qed.

(** C4: with invoices in week 51 of 2023 and week 2 of 2024, the
    latest period with invoices is week 2 of 2024, but the loop,
    which takes the largest week and the largest year separately,
    starts at week 51 of 2024, a period without invoices, and the
    trend over one period is empty; this is so with either
    arithmetic of the week. *)
Theorem trend_starts_off_the_latest_period (arith : week_arith) :
  trend_periods arith Samples.new_year_invoices 1 = Some [(51, 2024)] /\
  calculate_weekly_kpis Samples.new_year_invoices (Some 51) (Some 2024) = [] /\
  calculate_weekly_kpis Samples.new_year_invoices (Some 2) (Some 2024) <> [] /\
  calculate_trend arith Samples.new_year_invoices None 1 = Some [].
Proof.
  destruct arith; (split; [vm_compute; reflexivity|]);
    (split; [vm_compute; reflexivity|]);
    (split; [vm_compute; discriminate | vm_compute; reflexivity]).
Qed.

(** With at most [max_week + 52] periods, no visited week is below
    1, with either arithmetic of the week. *)
Lemma trend_periods_weeks_positive
  (arith : week_arith) (self : list Invoice) (weeks : nat) (max_week : Z)
  (periods : list (Z * Z)) :
  Zmax_list (map week self) = Some max_week ->
  Z.of_nat weeks <= max_week + 52 ->
  trend_periods arith self weeks = Some periods ->
  forall p, In p periods -> 1 <= fst p.
Proof.
  intros Hmax Hweeks Hper p Hp.
  apply trend_periods_some in Hper as (mw & my & Hmw & _ & -> & _).
  rewrite Hmax in Hmw. injection Hmw as <-.
  apply in_map_iff in Hp as (i & <- & Hi). apply in_seq in Hi.
  apply trend_period_week_positive. lia.
Qed.

(* ------------------------------------------------------------------ *)
(** ** The denominator of the imbalance ratio *)

Lemma round_half_even_ge_floor (q : Q) : Qfloor q <= round_half_even q.
Proof.
  unfold round_half_even.
  destruct (q - inject_Z (Qfloor q) ?= 1 # 2)%Q; [destruct (Z.even (Qfloor q))| |]; lia.
Qed.

Lemma round_dec_2_ge_one (q : Q) : (1 <= q)%Q -> (1 <= round_dec 2 q)%Q.
Proof.
  intro H. unfold round_dec. change (10 ^ Z.of_nat 2) with 100.
  apply Qle_shift_div_l; [reflexivity|].
  change (1 * inject_Z 100)%Q with (inject_Z 100).
  rewrite <- Zle_Qle.
  apply Z.le_trans with (Qfloor (q * inject_Z 100)); [|apply round_half_even_ge_floor].
  change 100 with (Qfloor (inject_Z 100)) at 1.
  apply Qfloor_resp_le.
  setoid_replace (inject_Z 100) with (1 * inject_Z 100)%Q at 1 by ring.
  apply Qmult_le_compat_r; [exact H | discriminate].
Qed.

Lemma complexity_weight_ge_one (n : Z) :
  exists w : Q, complexity_weight_of n = Some w /\ (1 <= w)%Q.
Proof.
  destruct (complexity_weight_cases n) as [[_ ->]|[[_ ->]|[[_ ->]|[_ ->]]]];
    eexists; (split; [reflexivity | discriminate]).
Qed.

(** The weights of a group add up to at least its number of
    orders. *)
Lemma group_weight_ge_length (orders : list Order) :
  (inject_Z (Z.of_nat (List.length orders))
   <= sum_skipna (map complexity_weight (AnalystWorkloadKPI.init orders)))%Q.
Proof.
  induction orders as [|o l IH].
  - simpl. discriminate.
  - unfold AnalystWorkloadKPI.init, _categorize_complexity in *.
    cbn [map complexity_weight]. unfold sum_skipna in *. cbn [flat_map].
    destruct (complexity_weight_ge_one (num_skus o)) as (w & Hw & Hle).
    unfold complexity_weight_of in Hw. rewrite Hw.
    cbn [app]. rewrite Qsum_cons.
    replace (Z.of_nat (List.length (o :: l))) with (1 + Z.of_nat (List.length l))
      by (simpl List.length; lia).
    rewrite inject_Z_plus.
    apply Qplus_le_compat; [exact Hle | exact IH].
Qed.

(** Every analyst of the workload table has a weighted workload of
    at least 1. *)
Lemma weighted_workload_ge_one (orders_df : list Order) (row : WorkloadRow) :
  In row (calculate_workload_by_analyst (AnalystWorkloadKPI.init orders_df)) ->
  (1 <= weighted_workload row)%Q.
Proof.
  intro Hrow. unfold calculate_workload_by_analyst in Hrow.
  apply in_map_iff in Hrow as (a & <- & Ha). cbn [weighted_workload].
  apply round_dec_2_ge_one.
  rewrite group_of_tagged.
  eapply Qle_trans; [|apply group_weight_ge_length].
  change 1%Q with (inject_Z 1). rewrite <- Zle_Qle.
  apply sorted_keys_In, in_map_iff in Ha as (t & Ht & Hin).
  unfold AnalystWorkloadKPI.init, _categorize_complexity in Hin.
  apply in_map_iff in Hin as (o & <- & Ho). cbn [order] in Ht.
  assert (Hf : In o (filter (fun o => String.eqb (analyst_id o) a) orders_df))
    by (apply filter_In; split; [exact Ho | now apply String.eqb_eq]).
  destruct (filter (fun o => String.eqb (analyst_id o) a) orders_df);
    [contradiction | simpl List.length; lia].
Qed.

Lemma Qmin_list_ge_one (l : list Q) (m : Q) :
  (forall x, In x l -> (1 <= x)%Q) -> Qmin_list l = Some m -> (1 <= m)%Q.
Proof.
  destruct l as [|x l]; [discriminate|]. cbn [Qmin_list]. intros Hall [= <-].
  assert (Hx : (1 <= x)%Q) by (apply Hall; now left).
  assert (Hl : forall y, In y l -> (1 <= y)%Q) by (intros; apply Hall; now right).
  clear Hall. revert x Hx. induction l as [|y l IH]; intros x Hx; [exact Hx|].
  cbn [fold_left]. apply IH.
  - intros; apply Hl; now right.
  - destruct (Qle_bool y x); [apply Hl; now left | exact Hx].
Qed.

(** On a table with at least one order the minimum workload is at
    least 1, and the imbalance ratio is the finite quotient of the
    maximum by the minimum. *)
Lemma imbalance_ratio_denominator_positive (orders_df : list Order) :
  orders_df <> [] ->
  exists a b : Q,
    max_workload (detect_workload_imbalance (AnalystWorkloadKPI.init orders_df)) = Some a /\
    min_workload (detect_workload_imbalance (AnalystWorkloadKPI.init orders_df)) = Some b /\
    (1 <= b)%Q /\
    imbalance_ratio (detect_workload_imbalance (AnalystWorkloadKPI.init orders_df))
    = Fin (a / b).
Proof.
  intro Hne. unfold detect_workload_imbalance.
  cbn [max_workload min_workload imbalance_ratio].
  set (workload := map weighted_workload
                     (calculate_workload_by_analyst (AnalystWorkloadKPI.init orders_df))).
  assert (Hall : forall x, In x workload -> (1 <= x)%Q).
  { intros x Hx. apply in_map_iff in Hx as (row & <- & Hrow).
    now apply (weighted_workload_ge_one orders_df). }
  assert (Hw : workload <> []).
  { unfold workload, calculate_workload_by_analyst. intro H.
    apply map_eq_nil, map_eq_nil in H.
    destruct orders_df as [|o l]; [congruence|].
    assert (Hin : In (analyst_id o)
                     (sorted_keys (map (fun r => analyst_id (order r))
                                       (AnalystWorkloadKPI.init (o :: l)))))
      by (apply sorted_keys_In; now left).
    rewrite H in Hin. contradiction. }
  destruct (Qmax_list workload) as [a|] eqn:Ea;
    [|destruct workload; [congruence | discriminate]].
  destruct (Qmin_list workload) as [b|] eqn:Eb;
    [|destruct workload; [congruence | discriminate]].
  exists a, b. repeat split.
  - now apply (Qmin_list_ge_one workload).
  - apply fdiv_finite. intro H0.
    pose proof (Qmin_list_ge_one workload b Hall Eb) as Hb.
    rewrite H0 in Hb. exact (Hb eq_refl).
Qed.

(* ================================================================== *)
(** * Further properties of the three KPI classes *)

(* ------------------------------------------------------------------ *)
(** ** Sums over the groups of a table *)

(** A value attributed to the key [k] is found once in a list of
    distinct keys that holds [k]. *)
Lemma Zsum_at_key (k : string) (v : Z) (ks : list string) :
  NoDup ks -> In k ks ->
  Zsum (map (fun c => if String.eqb k c then v else 0) ks) = v.
Proof.
  intros Hnd Hin.
  pose proof (key_counted_once k ks Hnd Hin) as H1.
  assert (E : forall l,
             Zsum (map (fun c => if String.eqb k c then v else 0) l)
             = v * Zsum (map (fun c => if String.eqb k c then 1 else 0) l)).
  { induction l as [|c l IH]; simpl; [lia|]. rewrite IH.
    destruct (String.eqb k c); lia. }
  rewrite E, H1. lia.
Qed.

Lemma Zsum_per_key {B : Type} (key : B -> string) (f : B -> Z)
      (l : list B) (ks : list string) :
  NoDup ks -> (forall r, In r l -> In (key r) ks) ->
  Zsum (map (fun c => Zsum (map f (filter (fun r => String.eqb (key r) c) l))) ks)
  = Zsum (map f l).
Proof.
  intros Hnd. induction l as [|r l IH]; intro Hcov.
  - simpl. clear Hnd Hcov. induction ks as [|c ks IHk]; [reflexivity|].
    simpl. now rewrite IHk.
  - erewrite map_ext with
      (g := fun c => (if String.eqb (key r) c then f r else 0)
                     + Zsum (map f (filter (fun r0 => String.eqb (key r0) c) l))).
    + rewrite Zsum_map_add, IH by (intros; apply Hcov; now right).
      rewrite (Zsum_at_key (key r) (f r) ks Hnd (Hcov r (or_introl eq_refl))).
      reflexivity.
    + intro c. cbn [filter]. destruct (String.eqb (key r) c); reflexivity.
Qed.

Lemma Qsum_map_add {B : Type} (f g : B -> Q) (l : list B) :
  (Qsum (map (fun x => f x + g x) l) == Qsum (map f l) + Qsum (map g l))%Q.
Proof.
  induction l as [|x l IH]; [reflexivity|].
  cbn [map]. rewrite !Qsum_cons, IH. ring.
Qed.

Lemma Qsum_at_key (k : string) (v : Q) (ks : list string) :
  NoDup ks -> In k ks ->
  (Qsum (map (fun c => if String.eqb k c then v else 0) ks) == v)%Q.
Proof.
  induction ks as [|c ks IH]; intros Hnd Hin; [contradiction|].
  inversion Hnd as [|? ? Hnotin Hnd']; subst. cbn [map]. rewrite Qsum_cons.
  destruct (String.eqb_spec k c) as [->|Hne].
  - assert (H0 : (Qsum (map (fun c0 => if String.eqb c c0 then v else 0) ks) == 0)%Q).
    { clear IH Hnd Hnd' Hin. induction ks as [|d ks IH]; [reflexivity|].
      cbn [map]. rewrite Qsum_cons.
      destruct (String.eqb_spec c d) as [->|_].
      - exfalso. apply Hnotin. now left.
      - rewrite IH; [ring|]. intro H. apply Hnotin. now right. }
    rewrite H0. ring.
  - destruct Hin as [H|H]; [congruence|]. rewrite (IH Hnd' H). ring.
Qed.

Lemma Qsum_ext {B : Type} (f g : B -> Q) (l : list B) :
  (forall x, (f x == g x)%Q) -> (Qsum (map f l) == Qsum (map g l))%Q.
Proof.
  intro H. induction l as [|x l IH]; [reflexivity|].
  cbn [map]. rewrite !Qsum_cons, IH, (H x). reflexivity.
Qed.

Lemma Qsum_per_key {B : Type} (key : B -> string) (f : B -> Q)
      (l : list B) (ks : list string) :
  NoDup ks -> (forall r, In r l -> In (key r) ks) ->
  (Qsum (map (fun c => Qsum (map f (filter (fun r => String.eqb (key r) c) l))) ks)
   == Qsum (map f l))%Q.
Proof.
  intros Hnd. induction l as [|r l IH]; intro Hcov.
  - cbn [filter map]. clear Hnd Hcov. induction ks as [|c ks IHk]; [reflexivity|].
    cbn [map]. rewrite Qsum_cons, IHk. reflexivity.
  - rewrite (Qsum_ext _
               (fun c => (if String.eqb (key r) c then f r else 0)
                         + Qsum (map f (filter (fun r0 => String.eqb (key r0) c) l)))%Q).
    + rewrite Qsum_map_add, IH by (intros; apply Hcov; now right).
      rewrite (Qsum_at_key (key r) (f r) ks Hnd (Hcov r (or_introl eq_refl))).
      reflexivity.
    + intro c. cbn [filter]. destruct (String.eqb (key r) c).
      * cbn [map]. rewrite Qsum_cons. reflexivity.
      * ring.
Qed.

Lemma sorted_keys_sorted (l : list string) : Sorted (le_of String.leb) (sorted_keys l).
Proof.
  apply sort_by_sorted, String.leb_total.
Qed.

(* ------------------------------------------------------------------ *)
(** ** The workload table: rows and totals *)

(** The table has one row per analyst that has an order, and no
    other row; the rows are in ascending order of analyst. *)
Theorem workload_one_row_per_analyst (orders_df : list Order) :
  NoDup (map w_analyst (calculate_workload_by_analyst (AnalystWorkloadKPI.init orders_df))) /\
  Sorted (le_of String.leb)
         (map w_analyst (calculate_workload_by_analyst (AnalystWorkloadKPI.init orders_df))) /\
  (forall a : string,
     In a (map w_analyst (calculate_workload_by_analyst (AnalystWorkloadKPI.init orders_df)))
     <-> exists o, In o orders_df /\ analyst_id o = a).
Proof.
  assert (E : map w_analyst (calculate_workload_by_analyst (AnalystWorkloadKPI.init orders_df))
              = sorted_keys (map analyst_id orders_df)).
  { unfold calculate_workload_by_analyst. rewrite map_map. cbn [w_analyst].
    rewrite map_id. unfold AnalystWorkloadKPI.init, _categorize_complexity.
    now rewrite map_map. }
  rewrite E. split; [apply sorted_keys_NoDup|]. split; [apply sorted_keys_sorted|].
  intro a. rewrite sorted_keys_In, in_map_iff. split.
  - intros (o & Ho & Hin). now exists o.
  - intros (o & Hin & Ho). now exists o.
Qed.

(** Grouping loses and repeats no order: over the rows, the ticket
    counts add up to the number of orders and the SKU totals to the
    SKUs of all orders. *)
Theorem workload_totals_conserved (orders_df : list Order) :
  Zsum (map total_tickets (calculate_workload_by_analyst (AnalystWorkloadKPI.init orders_df)))
  = Z.of_nat (List.length orders_df) /\
  Zsum (map total_skus (calculate_workload_by_analyst (AnalystWorkloadKPI.init orders_df)))
  = Zsum (map num_skus orders_df).
Proof.
  unfold calculate_workload_by_analyst. rewrite !map_map.
  cbn [total_tickets total_skus]. unfold group_of.
  set (self := AnalystWorkloadKPI.init orders_df).
  assert (Hcov : forall r, In r self ->
                           In (analyst_id (order r))
                              (sorted_keys (map (fun r => analyst_id (order r)) self)))
    by (intros r Hr; apply sorted_keys_In; now apply (in_map (fun r => analyst_id (order r)))).
  split.
  - pose proof (counts_per_key_sum (fun r => analyst_id (order r)) self _
                  (sorted_keys_NoDup _) Hcov) as H.
    unfold count_if in H. rewrite H.
    unfold self, AnalystWorkloadKPI.init, _categorize_complexity. now rewrite length_map.
  - rewrite (Zsum_per_key (fun r => analyst_id (order r)) (fun r => num_skus (order r))
               self _ (sorted_keys_NoDup _) Hcov).
    unfold self, AnalystWorkloadKPI.init, _categorize_complexity. now rewrite map_map.
Qed.

(** Every row of the workload table stands for at least one order:
    its ticket count and its weighted workload are at least 1, and the
    two averages, which divide by the ticket count, are finite. *)
Theorem workload_rows_divide_by_positive_count
  (orders_df : list Order) (row : WorkloadRow)
  (Hrow : In row (calculate_workload_by_analyst (AnalystWorkloadKPI.init orders_df))) :
  1 <= total_tickets row /\
  (1 <= weighted_workload row)%Q /\
  (exists q : Q, avg_skus_per_ticket row = Fin q) /\
  (exists q : Q, avg_complexity_weight row = Fin q).
Proof.
  pose proof (weighted_workload_ge_one orders_df row Hrow) as Hw.
  unfold calculate_workload_by_analyst in Hrow.
  apply in_map_iff in Hrow as (a & <- & Ha).
  cbn [total_tickets avg_skus_per_ticket avg_complexity_weight] in *.
  assert (Hn : 1 <= Z.of_nat (List.length (group_of (AnalystWorkloadKPI.init orders_df) a))).
  { apply sorted_keys_In, in_map_iff in Ha as (t & Ht & Hin).
    assert (Hg : In t (group_of (AnalystWorkloadKPI.init orders_df) a))
      by (apply filter_In; split; [exact Hin | now apply String.eqb_eq]).
    destruct (group_of (AnalystWorkloadKPI.init orders_df) a);
      [contradiction | simpl List.length; lia]. }
  assert (Hq : ~ (inject_Z (Z.of_nat (List.length
                                        (group_of (AnalystWorkloadKPI.init orders_df) a)))
                  == 0)%Q).
  { change 0%Q with (inject_Z 0). rewrite inject_Z_injective. lia. }
  split; [exact Hn|]. split; [exact Hw|].
  rewrite !fdiv_finite by exact Hq. cbn [fround]. split; eexists; reflexivity.
Qed.

Lemma workload_rows_divide_by_positive_count_witness :
  exists row : WorkloadRow,
    In row (calculate_workload_by_analyst (AnalystWorkloadKPI.init Samples.workload_orders)) /\
    1 <= total_tickets row /\ (1 <= weighted_workload row)%Q.
Proof.
  assert (H : In (hd Samples.no_workload_row
                     (calculate_workload_by_analyst
                        (AnalystWorkloadKPI.init Samples.workload_orders)))
                 (calculate_workload_by_analyst
                    (AnalystWorkloadKPI.init Samples.workload_orders)))
    by (vm_compute; left; reflexivity).
  eexists. split; [exact H|].
  destruct (workload_rows_divide_by_positive_count Samples.workload_orders _ H)
    as (H1 & H2 & _).
  split; [exact H1 | exact H2].
Defined.

(* ------------------------------------------------------------------ *)
(** ** The imbalance ratio *)

Lemma Qmin_list_le_Qmax_list (l : list Q) (a b : Q) :
  Qmax_list l = Some a -> Qmin_list l = Some b -> (b <= a)%Q.
Proof.
  destruct l as [|x l]; [discriminate|]. cbn [Qmax_list Qmin_list].
  intros [= <-] [= <-].
  apply Qle_trans with x.
  - clear. assert (H : forall y, (y <= x)%Q ->
                       (fold_left (fun a b => if Qle_bool b a then b else a) l y <= x)%Q).
    { induction l as [|z l IH]; intros y Hy; [exact Hy|]. cbn [fold_left]. apply IH.
      destruct (Qle_bool z y) eqn:E; [|exact Hy].
      apply Qle_bool_iff in E. now apply Qle_trans with y. }
    apply H, Qle_refl.
  - clear. assert (H : forall y, (x <= y)%Q ->
                       (x <= fold_left (fun a b => if Qle_bool a b then b else a) l y)%Q).
    { induction l as [|z l IH]; intros y Hy; [exact Hy|]. cbn [fold_left]. apply IH.
      destruct (Qle_bool y z) eqn:E; [|exact Hy].
      apply Qle_bool_iff in E. now apply Qle_trans with y. }
    apply H, Qle_refl.
Qed.

(** The imbalance ratio is NaN on an empty table, where the maximum
    and the minimum are NaN; on any other table it is the finite
    quotient of the maximum by a minimum of at least 1, and is itself
    at least 1. *)
Theorem imbalance_ratio_finite_unless_empty (orders_df : list Order) :
  (orders_df = [] /\
   max_workload (detect_workload_imbalance (AnalystWorkloadKPI.init orders_df)) = None /\
   min_workload (detect_workload_imbalance (AnalystWorkloadKPI.init orders_df)) = None /\
   avg_workload (detect_workload_imbalance (AnalystWorkloadKPI.init orders_df)) = NaN /\
   imbalance_ratio (detect_workload_imbalance (AnalystWorkloadKPI.init orders_df)) = NaN) \/
  (orders_df <> [] /\
   exists a b : Q,
     max_workload (detect_workload_imbalance (AnalystWorkloadKPI.init orders_df)) = Some a /\
     min_workload (detect_workload_imbalance (AnalystWorkloadKPI.init orders_df)) = Some b /\
     (1 <= b)%Q /\ (b <= a)%Q /\
     imbalance_ratio (detect_workload_imbalance (AnalystWorkloadKPI.init orders_df))
     = Fin (a / b) /\
     (1 <= a / b)%Q).
Proof.
  destruct orders_df as [|o l].
  - left. repeat split; reflexivity.
  - right. split; [discriminate|].
    destruct (imbalance_ratio_denominator_positive (o :: l)) as (a & b & Ha & Hb & H1 & Hr);
      [discriminate|].
    exists a, b.
    assert (Hba : (b <= a)%Q).
    { unfold detect_workload_imbalance in Ha, Hb. cbn [max_workload min_workload] in Ha, Hb.
      exact (Qmin_list_le_Qmax_list _ a b Ha Hb). }
    repeat split; try assumption.
    apply Qle_shift_div_l.
    + apply Qlt_le_trans with 1%Q; [reflexivity | exact H1].
    + now rewrite Qmult_1_l.
Qed.

(* ------------------------------------------------------------------ *)
(** ** The distribution of complexity *)

Lemma Zmax_list_In (l : list Z) (m : Z) : Zmax_list l = Some m -> In m l.
Proof.
  destruct l as [|x l]; [discriminate|]. cbn [Zmax_list]. intros [= <-].
  assert (H : forall y, In (fold_left Z.max l y) (y :: l)).
  { induction l as [|z l IH]; intro y; [now left|]. cbn [fold_left].
    destruct (IH (Z.max y z)) as [H|H].
    - rewrite <- H.
      destruct (Z.max_spec y z) as [[_ E]|[_ E]]; rewrite E;
        [right; now left | now left].
    - right. right. exact H. }
  apply H.
Qed.

(** The counts of the distribution add up to the number of orders. *)
Theorem distribution_counts_conserved (orders_df : list Order) :
  Zsum (map d_count (get_complexity_distribution (AnalystWorkloadKPI.init orders_df)))
  = Z.of_nat (List.length orders_df).
Proof.
  unfold get_complexity_distribution. rewrite map_map. cbn [d_count].
  unfold complexity_group.
  set (self := AnalystWorkloadKPI.init orders_df).
  pose proof (counts_per_key_sum complexity self (sorted_keys (map complexity self))
                (sorted_keys_NoDup _)) as H.
  unfold count_if in H. rewrite H.
  - unfold self, AnalystWorkloadKPI.init, _categorize_complexity. now rewrite length_map.
  - intros r Hr. apply sorted_keys_In. now apply in_map.
Qed.

(** Every row of the distribution stands for at least one order, and
    the largest SKU count it reports is the SKU count of an order
    that the classifier puts in the category of the row. *)
Theorem distribution_max_is_in_its_category
  (orders_df : list Order) (row : DistributionRow)
  (Hrow : In row (get_complexity_distribution (AnalystWorkloadKPI.init orders_df))) :
  1 <= d_count row /\
  exists m : Z,
    d_max_skus row = Some m /\
    get_complexity m = d_complexity row /\
    exists o : Order, In o orders_df /\ num_skus o = m.
Proof.
  unfold get_complexity_distribution in Hrow.
  apply in_map_iff in Hrow as (c & <- & Hc). cbn [d_count d_max_skus d_complexity].
  set (g := complexity_group (AnalystWorkloadKPI.init orders_df) c).
  assert (Hg : g <> []).
  { apply sorted_keys_In, in_map_iff in Hc as (t & Ht & Hin).
    assert (H : In t g) by (apply filter_In; split; [exact Hin | now apply String.eqb_eq]).
    intro E. rewrite E in H. contradiction. }
  split; [destruct g; [congruence | simpl List.length; lia]|].
  destruct (Zmax_list (map (fun r => num_skus (order r)) g)) as [m|] eqn:Em;
    [|destruct g; [congruence | discriminate]].
  exists m. split; [reflexivity|].
  apply Zmax_list_In, in_map_iff in Em as (t & Ht & Hin).
  apply filter_In in Hin as [Hin Hcx]. apply String.eqb_eq in Hcx.
  unfold AnalystWorkloadKPI.init, _categorize_complexity in Hin.
  apply in_map_iff in Hin as (o & <- & Ho). cbn [order complexity] in *.
  split; [congruence|]. now exists o.
Qed.

Lemma distribution_max_is_in_its_category_witness :
  exists row : DistributionRow,
    In row (get_complexity_distribution (AnalystWorkloadKPI.init Samples.workload_orders)) /\
    1 <= d_count row.
Proof.
  assert (H : In (hd Samples.no_distribution_row
                     (get_complexity_distribution
                        (AnalystWorkloadKPI.init Samples.workload_orders)))
                 (get_complexity_distribution
                    (AnalystWorkloadKPI.init Samples.workload_orders)))
    by (vm_compute; left; reflexivity).
  eexists. split; [exact H|].
  apply (distribution_max_is_in_its_category Samples.workload_orders _ H).
Defined.

(* ------------------------------------------------------------------ *)
(** ** The specialization table *)

Lemma idxmax_spec (row : list (string * Z)) :
  row <> [] ->
  exists c n, idxmax row = Some (c, n) /\ In (c, n) row /\
              forall c' n', In (c', n') row -> n' <= n.
Proof.
  induction row as [|[c n] rest IH]; intros Hne; [congruence|].
  cbn [idxmax]. destruct rest as [|p rest'].
  - exists c, n. cbn [idxmax]. split; [reflexivity|]. split; [now left|].
    intros c' n' [[= <- <-]|[]]. lia.
  - destruct IH as (c0 & n0 & E & Hin & Hmax); [discriminate|].
    rewrite E. destruct (Z.leb_spec n0 n) as [Hle|Hgt].
    + exists c, n. split; [reflexivity|]. split; [now left|].
      intros c' n' [[= <- <-]|H]; [lia|]. specialize (Hmax c' n' H). lia.
    + exists c0, n0. split; [reflexivity|]. split; [now right|].
      intros c' n' [[= <- <-]|H]; [lia|]. now apply (Hmax c').
Qed.

Lemma count_if_pos {B : Type} (p : B -> bool) (l : list B) (x : B) :
  In x l -> p x = true -> 1 <= count_if p l.
Proof.
  induction l as [|y l IH]; intros Hin Hp; [contradiction|].
  rewrite count_if_cons. pose proof (count_if_nonneg p l).
  destruct Hin as [->|Hin]; [rewrite Hp; lia|].
  specialize (IH Hin Hp). destruct (p y); lia.
Qed.

Lemma Zsum_ge_member (l : list Z) (x : Z) :
  (forall y, In y l -> 0 <= y) -> In x l -> x <= Zsum l.
Proof.
  induction l as [|y l IH]; intros Hpos Hin; [contradiction|]. cbn [Zsum fold_right].
  assert (H0 : 0 <= Zsum l).
  { clear IH Hin. induction l as [|z l IHl]; [simpl; lia|]. cbn [Zsum fold_right].
    assert (0 <= z) by (apply Hpos; right; now left).
    assert (0 <= Zsum l) by (apply IHl; intros w [Hw|Hw]; apply Hpos; [now left | right; now right]).
    unfold Zsum in *. lia. }
  destruct Hin as [->|Hin].
  - unfold Zsum in *. lia.
  - assert (0 <= y) by (apply Hpos; now left).
    assert (x <= Zsum l) by (apply IH; [intros; apply Hpos; now right | exact Hin]).
    unfold Zsum in *. lia.
Qed.

(** The dominant category of an order is the category of one of its
    joined lines, hence a category of the SKU table. *)
Lemma dominant_by_order_from_skus
  (skus_df : list Sku) (order_lines_df : list OrderLine) (oid c : string) :
  In (oid, c) (dominant_by_order (merge_sku_category order_lines_df skus_df)) ->
  In c (map category skus_df) /\
  exists l, In l order_lines_df /\ line_order_id l = oid.
Proof.
  intro Hin. unfold dominant_by_order in Hin.
  apply in_map_iff in Hin as (oid' & [= -> <-] & Hkey).
  set (merged := merge_sku_category order_lines_df skus_df) in *.
  set (x := map snd (filter (fun r => String.eqb (line_order_id (fst r)) oid) merged)).
  assert (Hmerged : forall r, In r merged ->
                              In (fst r) order_lines_df /\ In (snd r) (map category skus_df)).
  { intros r Hr. unfold merged, merge_sku_category in Hr.
    apply in_flat_map in Hr as (l & Hl & Hr).
    apply in_map_iff in Hr as (k & <- & Hk). apply filter_In in Hk as [Hk _].
    cbn [fst snd]. split; [exact Hl | now apply in_map]. }
  apply sorted_keys_In, in_map_iff in Hkey as (r & Hr & Hrin).
  split.
  - assert (Hx : x <> []).
    { intro E. assert (H : In (snd r) x).
      { unfold x. apply in_map, filter_In. split; [exact Hrin|].
        rewrite Hr. apply String.eqb_refl. }
      rewrite E in H. contradiction. }
    destruct (dominant_least_mode x Hx) as (Hd & _).
    unfold x in Hd at 2. apply in_map_iff in Hd as (r' & Hr' & Hin').
    apply filter_In in Hin' as [Hin' _]. fold x in Hr'. rewrite <- Hr'.
    now apply Hmerged.
  - exists (fst r). split; [now apply Hmerged | exact Hr].
Qed.

(** Every row of the specialization table belongs to an analyst with
    an order that has an order line; its primary category is a
    category of the SKU table, at least one category is handled, and
    the percentage is finite. *)
Theorem specialization_row_has_primary_category
  (orders_df : list Order) (skus_df : list Sku) (order_lines_df : list OrderLine)
  (row : SpecializationRow)
  (Hrow : In row (identify_specialization (AnalystWorkloadKPI.init orders_df)
                    skus_df order_lines_df)) :
  (exists c : string, primary_category row = Some c /\ In c (map category skus_df)) /\
  1 <= categories_handled row /\
  (exists q : Q, primary_category_pct row = Fin q) /\
  (exists (o : Order) (l : OrderLine),
     In o orders_df /\ analyst_id o = s_analyst row /\
     In l order_lines_df /\ line_order_id l = order_id o).
Proof.
  unfold identify_specialization in Hrow.
  set (dom := dominant_by_order (merge_sku_category order_lines_df skus_df)) in *.
  set (owc := orders_with_category (AnalystWorkloadKPI.init orders_df) dom) in *.
  apply in_map_iff in Hrow as ([a counts] & <- & Hcd).
  cbn [primary_category categories_handled primary_category_pct s_analyst].
  unfold category_dist in Hcd.
  apply in_map_iff in Hcd as (a' & [= -> <-] & Ha).
  apply sorted_keys_In, in_map_iff in Ha as (r & Hra & Hr).
  set (columns := sorted_keys (map snd owc)) in *.
  pose (cnt := fun c => count_if (fun r0 => String.eqb (analyst_id (order (fst r0))) a
                                            && String.eqb (snd r0) c) owc).
  change (map (fun c => (c, count_if
                              (fun r0 => String.eqb (analyst_id (order (fst r0))) a
                                         && String.eqb (snd r0) c) owc)) columns)
    with (map (fun c => (c, cnt c)) columns).
  set (counts := map (fun c => (c, cnt c)) columns).
  assert (Hcol : forall c, In c columns -> exists o, In (o, c) owc).
  { intros c Hc. apply sorted_keys_In, in_map_iff in Hc as ([o c'] & Hc & Hin).
    cbn [snd] in Hc. subst c'. now exists o. }
  assert (Howc : forall o c, In (o, c) owc ->
                             In o (AnalystWorkloadKPI.init orders_df) /\
                             In (order_id (order o), c) dom).
  { intros o c Hin. unfold owc, orders_with_category in Hin.
    apply in_flat_map in Hin as (o' & Ho' & Hin).
    apply in_map_iff in Hin as ([oid c'] & [= -> ->] & Hd).
    apply filter_In in Hd as [Hd Hid]. cbn [fst] in Hid.
    apply String.eqb_eq in Hid. rewrite Hid. split; assumption. }
  assert (H0 : In (snd r, cnt (snd r)) counts /\ 1 <= cnt (snd r)).
  { split.
    - unfold counts. apply (in_map (fun c => (c, cnt c))).
      apply sorted_keys_In. now apply in_map.
    - unfold cnt. apply (count_if_pos _ owc r Hr).
      rewrite Hra, !String.eqb_refl. reflexivity. }
  destruct H0 as [Hin0 Hpos0].
  assert (Hnonneg : forall y, In y (map snd counts) -> 0 <= y).
  { intros y Hy. apply in_map_iff in Hy as ([c n] & <- & Hcn).
    unfold counts in Hcn. apply in_map_iff in Hcn as (c' & [= <- <-] & _).
    apply count_if_nonneg. }
  destruct (idxmax_spec counts) as (c & n & E & Hin & Hmax).
  { intro Hnil. rewrite Hnil in Hin0. contradiction. }
  rewrite E. cbn [option_map fst].
  assert (Hn : 1 <= n) by (specialize (Hmax _ _ Hin0); lia).
  repeat split.
  - exists c. split; [reflexivity|].
    unfold counts in Hin. apply in_map_iff in Hin as (c' & [= -> _] & Hc).
    destruct (Hcol c Hc) as (o & Ho).
    destruct (Howc o c Ho) as [_ Hd].
    now apply (dominant_by_order_from_skus skus_df order_lines_df (order_id (order o)) c).
  - apply (count_if_pos _ counts (snd r, cnt (snd r)) Hin0).
    cbn [snd]. apply Z.ltb_lt. lia.
  - assert (Hs : 1 <= Zsum (map snd counts)).
    { apply Z.le_trans with n; [exact Hn|].
      apply Zsum_ge_member; [exact Hnonneg|].
      now apply (in_map snd counts (c, n)). }
    rewrite fdiv_finite.
    + cbn [fscale fround]. eexists. reflexivity.
    + change 0%Q with (inject_Z 0). rewrite inject_Z_injective. lia.
  - destruct r as [o c0]. cbn [fst snd] in *.
    destruct (Howc o c0 Hr) as [Ho Hd].
    destruct (dominant_by_order_from_skus skus_df order_lines_df _ _ Hd)
      as (_ & l & Hl & Hlid).
    unfold AnalystWorkloadKPI.init, _categorize_complexity in Ho.
    apply in_map_iff in Ho as (o' & <- & Ho'). cbn [order] in *.
    exists o', l. repeat split; assumption.
Qed.

Lemma specialization_row_has_primary_category_witness :
  exists row : SpecializationRow,
    In row (identify_specialization (AnalystWorkloadKPI.init Samples.one_line_orders)
              Samples.one_line_skus Samples.one_line_lines) /\
    1 <= categories_handled row.
Proof.
  assert (H : In (hd Samples.no_specialization_row
                     (identify_specialization
                        (AnalystWorkloadKPI.init Samples.one_line_orders)
                        Samples.one_line_skus Samples.one_line_lines))
                 (identify_specialization
                    (AnalystWorkloadKPI.init Samples.one_line_orders)
                    Samples.one_line_skus Samples.one_line_lines))
    by (vm_compute; left; reflexivity).
  eexists. split; [exact H|].
  apply (specialization_row_has_primary_category
           Samples.one_line_orders Samples.one_line_skus Samples.one_line_lines _ H).
Defined.

(* ------------------------------------------------------------------ *)
(** ** Supplier concentration: totals, top five, range *)

Lemma Qsum_perm (l l' : list Q) : Permutation l l' -> (Qsum l == Qsum l')%Q.
Proof.
  induction 1 as [|x l l' _ IH|x y l|l l' l'' _ IH1 _ IH2].
  - reflexivity.
  - rewrite !Qsum_cons, IH. reflexivity.
  - rewrite !Qsum_cons. ring.
  - now rewrite IH1.
Qed.

Lemma supplier_purchases_perm (self : FinancialPerformanceKPI.t) :
  Permutation (map snd (supplier_purchases self))
              (map (group_cost self) (sorted_keys (map supplier_id (orders_df self)))).
Proof.
  unfold supplier_purchases.
  eapply perm_trans.
  - apply Permutation_map, Permutation_sym, sort_by_perm.
  - rewrite map_map. cbn [snd]. apply Permutation_refl.
Qed.

Lemma total_purchases_sum
  (orders : list Order) (lines : option (list OrderLine)) :
  (total_purchases (init orders lines) == Qsum (map total_cost orders))%Q.
Proof.
  unfold total_purchases.
  rewrite (Qsum_perm _ _ (supplier_purchases_perm (init orders lines))).
  cbn [orders_df init]. unfold group_cost. cbn [orders_df init].
  apply (Qsum_per_key supplier_id total_cost orders).
  - apply sorted_keys_NoDup.
  - intros r Hr. apply sorted_keys_In. now apply in_map.
Qed.

(** With at most five suppliers and a total cost that is not zero,
    the five largest suppliers are all of them: the top-5
    concentration is 100. *)
Theorem top5_is_100_with_at_most_five_suppliers
  (orders : list Order) (lines : option (list OrderLine))
  (Htotal : ~ (Qsum (map total_cost orders) == 0)%Q) :
  exists r : Concentration,
    calculate_concentration_risk (init orders lines) = Return r /\
    (total_suppliers r <= 5 -> feq (top5_concentration_pct r) (Fin 100)).
Proof.
  exists (concentration_dict (init orders lines)). split.
  { apply concentration_risk_returns. intros ->. apply Htotal. reflexivity. }
  intro Hfive.
  cbn [concentration_dict total_suppliers top5_concentration_pct] in *.
  rewrite firstn_all2 by lia.
  fold (total_purchases (init orders lines)).
  assert (Ht : ~ (total_purchases (init orders lines) == 0)%Q).
  { intro H. apply Htotal. now rewrite <- (total_purchases_sum orders lines). }
  rewrite fdiv_finite by exact Ht. cbn [fscale].
  assert (E : feq (Fin (total_purchases (init orders lines)
                        / total_purchases (init orders lines) * 100)) (Fin 100)).
  { cbn [feq]. field. exact Ht. }
  rewrite (fround_comp 2 _ _ E). vm_compute. reflexivity.
Qed.

Lemma top5_is_100_with_at_most_five_suppliers_witness :
  ~ (Qsum (map total_cost Samples.two_supplier_orders) == 0)%Q /\
  exists r : Concentration,
    calculate_concentration_risk (init Samples.two_supplier_orders None) = Return r /\
    total_suppliers r <= 5 /\
    feq (top5_concentration_pct r) (Fin 100).
Proof.
  assert (H1 : ~ (Qsum (map total_cost Samples.two_supplier_orders) == 0)%Q)
    by (vm_compute; discriminate).
  split; [exact H1|].
  destruct (top5_is_100_with_at_most_five_suppliers Samples.two_supplier_orders None H1)
    as (r & Hr & Htop).
  exists r. split; [exact Hr|].
  assert (H2 : total_suppliers r <= 5).
  { assert (E : Return r = Return (concentration_dict (init Samples.two_supplier_orders None)))
      by (rewrite <- Hr; reflexivity).
    injection E as ->. vm_compute. discriminate. }
  split; [exact H2 | exact (Htop H2)].
Defined.

Lemma Qsum_zero (l : list Q) : (forall x, In x l -> (x == 0)%Q) -> (Qsum l == 0)%Q.
Proof.
  induction l as [|x l IH]; intro H; [reflexivity|].
  rewrite Qsum_cons, (H x (or_introl eq_refl)), IH; [reflexivity|].
  intros y Hy. apply H. now right.
Qed.

Lemma fdiv_zero_zero (a b : Q) : (a == 0)%Q -> (b == 0)%Q -> fdiv a b = NaN.
Proof.
  intros Ha Hb. unfold fdiv.
  rewrite (proj2 (Qeq_bool_iff b 0) Hb).
  now rewrite (proj1 (Qeq_alt a 0) Ha).
Qed.

Lemma fsum_skipna_all_nan (l : list fval) :
  (forall x, In x l -> x = NaN) -> fsum_skipna l = Fin 0.
Proof.
  intro H. unfold fsum_skipna. rewrite filter_nothing; [reflexivity|].
  intros x Hx. now rewrite (H x Hx).
Qed.

(** On a table with rows in which every order costs 0, whatever the
    number of suppliers, every share is 0/0 and is skipped: the
    method returns a dict whose HHI is 0, whose top-5 concentration is
    NaN and whose risk level is 'Bajo'. *)
Theorem zero_cost_table_has_hhi_zero
  (orders : list Order) (lines : option (list OrderLine))
  (Hrows : orders <> [])
  (Hzero : forall o, In o orders -> (total_cost o == 0)%Q) :
  hhi (init orders lines) = Fin 0 /\
  exists r : Concentration,
    calculate_concentration_risk (init orders lines) = Return r /\
    feq (hhi_index r) (Fin 0) /\
    top5_concentration_pct r = NaN /\
    risk_level r = "Bajo".
Proof.
  assert (Hgroup : forall p, In p (supplier_purchases (init orders lines)) ->
                             (snd p == 0)%Q).
  { intros p Hp. unfold supplier_purchases in Hp. apply sort_by_In in Hp.
    apply in_map_iff in Hp as (s & <- & _). cbn [snd]. unfold group_cost.
    apply Qsum_zero. intros x Hx. apply in_map_iff in Hx as (o & <- & Ho).
    apply filter_In in Ho as [Ho _]. now apply Hzero. }
  assert (Ht : (total_purchases (init orders lines) == 0)%Q).
  { rewrite total_purchases_sum. apply Qsum_zero.
    intros x Hx. apply in_map_iff in Hx as (o & <- & Ho). now apply Hzero. }
  assert (Hh : hhi (init orders lines) = Fin 0).
  { unfold hhi. apply fsum_skipna_all_nan. intros x Hx.
    unfold market_shares in Hx. apply in_map_iff in Hx as (p & <- & Hp).
    now rewrite (fdiv_zero_zero _ _ (Hgroup p Hp) Ht). }
  split; [exact Hh|].
  exists (concentration_dict (init orders lines)).
  split; [now apply concentration_risk_returns|].
  cbn [concentration_dict hhi_index top5_concentration_pct risk_level].
  rewrite Hh. split; [vm_compute; reflexivity|].
  split; [|reflexivity].
  fold (total_purchases (init orders lines)).
  rewrite fdiv_zero_zero; [reflexivity | | exact Ht].
  apply Qsum_zero. intros x Hx. apply in_map_iff in Hx as (p & <- & Hp).
  apply Hgroup. rewrite <- (firstn_skipn 5). apply in_or_app. now left.
Qed.

Lemma zero_cost_table_has_hhi_zero_witness :
  Samples.free_order <> [] /\
  (forall o, In o Samples.free_order -> (total_cost o == 0)%Q) /\
  exists r : Concentration,
    calculate_concentration_risk (init Samples.free_order None) = Return r /\
    feq (hhi_index r) (Fin 0) /\
    top5_concentration_pct r = NaN /\
    risk_level r = "Bajo".
Proof.
  assert (H0 : Samples.free_order <> []) by discriminate.
  assert (H : forall o, In o Samples.free_order -> (total_cost o == 0)%Q).
  { intros o Ho. simpl in Ho. destruct Ho as [<-|[]]. reflexivity. }
  split; [exact H0|]. split; [exact H|].
  apply (zero_cost_table_has_hhi_zero Samples.free_order None H0 H).
Defined.

Lemma Qsum_nonneg (l : list Q) : (forall x, In x l -> (0 <= x)%Q) -> (0 <= Qsum l)%Q.
Proof.
  induction l as [|x l IH]; intro H; [apply Qle_refl|].
  rewrite Qsum_cons.
  assert (0 <= x)%Q by (apply H; now left).
  assert (0 <= Qsum l)%Q by (apply IH; intros; apply H; now right).
  lra.
Qed.

Lemma Qsum_squares_le (l : list Q) :
  (forall x, In x l -> (0 <= x)%Q) ->
  (Qsum (map (fun x => x * x) l) <= Qsum l * Qsum l)%Q.
Proof.
  induction l as [|x l IH]; intro H; [cbn; lra|].
  cbn [map]. rewrite !Qsum_cons.
  assert (Hx : (0 <= x)%Q) by (apply H; now left).
  assert (Hl : forall y, In y l -> (0 <= y)%Q) by (intros; apply H; now right).
  pose proof (Qsum_nonneg l Hl) as Hs. specialize (IH Hl).
  nra.
Qed.

Lemma Qsum_scale (k : Q) (l : list Q) :
  (Qsum (map (fun c => c * k) l) == Qsum l * k)%Q.
Proof.
  induction l as [|x l IH]; [cbn; ring|].
  cbn [map]. rewrite !Qsum_cons, IH. ring.
Qed.

(** The sum of finite values is the finite value of their sum. *)
Lemma fsum_skipna_fin (qs : list Q) :
  exists h : Q, fsum_skipna (map Fin qs) = Fin h /\ (h == Qsum qs)%Q.
Proof.
  unfold fsum_skipna.
  rewrite filter_all by (intros x Hx; apply in_map_iff in Hx as (q & <- & _); reflexivity).
  assert (H : forall a, exists h, fold_left fadd (map Fin qs) (Fin a) = Fin h /\
                                  (h == a + Qsum qs)%Q).
  { induction qs as [|q qs IH]; intro a.
    - exists a. split; [reflexivity | cbn; ring].
    - cbn [map fold_left fadd]. destruct (IH (a + q)%Q) as (h & E & Hh).
      exists h. split; [exact E|]. rewrite Hh, Qsum_cons. ring. }
  destruct (H 0%Q) as (h & E & Hh). exists h. split; [exact E|]. rewrite Hh. ring.
Qed.

(** With costs that are not negative and a total cost that is not
    zero, the HHI is a finite value between 0 and 10000. *)
Theorem hhi_between_0_and_10000
  (orders : list Order) (lines : option (list OrderLine))
  (Hpos : forall o, In o orders -> (0 <= total_cost o)%Q)
  (Htotal : ~ (Qsum (map total_cost orders) == 0)%Q) :
  exists h : Q, hhi (init orders lines) = Fin h /\ (0 <= h)%Q /\ (h <= 10000)%Q.
Proof.
  set (self := init orders lines).
  set (T := total_purchases self).
  assert (HT : (T == Qsum (map total_cost orders))%Q)
    by apply total_purchases_sum.
  assert (Ht : ~ (T == 0)%Q) by (intro H; apply Htotal; now rewrite <- HT).
  set (cs := map snd (supplier_purchases self)).
  assert (Hcs : forall c, In c cs -> (0 <= c)%Q).
  { intros c Hc. unfold cs in Hc. apply in_map_iff in Hc as (p & <- & Hp).
    unfold supplier_purchases in Hp. apply sort_by_In in Hp.
    apply in_map_iff in Hp as (s & <- & _). cbn [snd]. unfold group_cost.
    apply Qsum_nonneg. intros x Hx. apply in_map_iff in Hx as (o & <- & Ho).
    apply filter_In in Ho as [Ho _]. now apply Hpos. }
  assert (HTpos : (0 < T)%Q).
  { assert (0 <= T)%Q by (apply (Qsum_nonneg cs Hcs)).
    destruct (Qlt_le_dec 0 T) as [H1|H1]; [exact H1|].
    exfalso. apply Ht. now apply Qle_antisym. }
  set (xs := map (fun c => c / T * 100)%Q cs).
  assert (Hshares : market_shares self = map Fin (map (fun x => x * x)%Q xs)).
  { unfold market_shares, xs, cs. rewrite !map_map. apply map_ext. intro p.
    fold T. rewrite fdiv_finite by exact Ht. reflexivity. }
  destruct (fsum_skipna_fin (map (fun x => x * x)%Q xs)) as (h & Eh & Hh).
  exists h. unfold hhi. rewrite Hshares. split; [exact Eh|].
  assert (Hxs : forall x, In x xs -> (0 <= x)%Q).
  { intros x Hx. unfold xs in Hx. apply in_map_iff in Hx as (c & <- & Hc).
    apply Qmult_le_0_compat; [|discriminate].
    apply Qmult_le_0_compat; [now apply Hcs|].
    apply Qlt_le_weak, Qinv_lt_0_compat, HTpos. }
  assert (Hsum : (Qsum xs == 100)%Q).
  { unfold xs.
    rewrite (Qsum_ext (fun c => c / T * 100)%Q (fun c => c * (/ T * 100))%Q cs)
      by (intro c; field; exact Ht).
    rewrite Qsum_scale. change (Qsum cs) with T. field. exact Ht. }
  rewrite Hh. split.
  - apply Qsum_nonneg. intros y Hy. apply in_map_iff in Hy as (x & <- & Hx).
    specialize (Hxs x Hx). nra.
  - eapply Qle_trans; [apply (Qsum_squares_le xs Hxs)|].
    rewrite Hsum. discriminate.
Qed.

Lemma hhi_between_0_and_10000_witness :
  exists h : Q,
    hhi (init Samples.two_supplier_orders None) = Fin h /\ (0 <= h)%Q /\ (h <= 10000)%Q.
Proof.
  apply (hhi_between_0_and_10000 Samples.two_supplier_orders None).
  - intros o Ho. simpl in Ho.
    destruct Ho as [<-|[<-|[<-|[]]]]; vm_compute; discriminate.
  - vm_compute. discriminate.
Defined.

(* ------------------------------------------------------------------ *)
(** ** Margin opportunities and margin metrics *)

Lemma margin_opportunity_In
  (orders : list Order) (lines : option (list OrderLine)) (T : Q) (r : Opportunity) :
  In r (identify_margin_opportunities (init orders lines) T) <->
  exists o, In o orders /\ (margin_pct o < T)%Q /\ r = opportunity_of T o.
Proof.
  unfold identify_margin_opportunities. cbn [orders_df init].
  rewrite sort_by_In, in_map_iff. split.
  - intros (o & <- & Ho). apply filter_In in Ho as [Ho Hm].
    exists o. repeat split; [exact Ho | now apply Qlt_bool_iff].
  - intros (o & Ho & Hm & ->). exists o. split; [reflexivity|].
    apply filter_In. split; [exact Ho | now apply Qlt_bool_iff].
Qed.

(** Every returned row has a margin below the threshold and an
    improvement potential that is strictly positive; when its cost is
    not negative, neither is its potential additional margin. *)
Theorem margin_opportunity_rows_are_positive
  (orders : list Order) (lines : option (list OrderLine)) (T : Q) (r : Opportunity)
  (Hr : In r (identify_margin_opportunities (init orders lines) T)) :
  (op_margin_pct r < T)%Q /\
  (0 < improvement_potential r)%Q /\
  ((0 <= op_total_cost r)%Q -> (0 <= potential_additional_margin r)%Q).
Proof.
  apply margin_opportunity_In in Hr as (o & _ & Hm & ->).
  unfold opportunity_of.
  cbn [op_margin_pct improvement_potential op_total_cost potential_additional_margin].
  split; [exact Hm|]. split; [lra|].
  intro Hc. apply Qle_shift_div_l; [reflexivity|].
  rewrite Qmult_0_l. apply Qmult_le_0_compat; [exact Hc | lra].
Qed.

Lemma margin_opportunity_rows_are_positive_witness :
  exists r : Opportunity,
    In r (identify_margin_opportunities (init [Samples.margin_example_order] None) 15) /\
    (0 < improvement_potential r)%Q.
Proof.
  assert (H : In (hd Samples.no_opportunity
                     (identify_margin_opportunities
                        (init [Samples.margin_example_order] None) 15))
                 (identify_margin_opportunities
                    (init [Samples.margin_example_order] None) 15))
    by (vm_compute; left; reflexivity).
  eexists. split; [exact H|].
  apply (margin_opportunity_rows_are_positive [Samples.margin_example_order] None 15 _ H).
Defined.

(** Raising the threshold drops no order: an order selected under
    [T] is selected under every [T' >= T]; and a threshold that no
    margin is below selects nothing. *)
Theorem margin_opportunities_grow_with_threshold
  (orders : list Order) (lines : option (list OrderLine)) (T T' : Q)
  (Hle : (T <= T')%Q) :
  (forall o : Order,
     In (opportunity_of T o) (identify_margin_opportunities (init orders lines) T) ->
     In (opportunity_of T' o) (identify_margin_opportunities (init orders lines) T')) /\
  (List.length (identify_margin_opportunities (init orders lines) T)
   <= List.length (identify_margin_opportunities (init orders lines) T'))%nat /\
  ((forall o, In o orders -> (T' <= margin_pct o)%Q) ->
   identify_margin_opportunities (init orders lines) T' = []).
Proof.
  split; [|split].
  - intros o Ho. apply margin_opportunity_In in Ho as (o' & Ho' & Hm & E).
    apply margin_opportunity_In. exists o'. split; [exact Ho'|]. split; [lra|].
    unfold opportunity_of in *. injection E as E1 E2 E3 E4 _ _.
    now rewrite E1, E2, E3, E4.
  - unfold identify_margin_opportunities. cbn [orders_df init].
    rewrite !sort_by_length, !length_map.
    induction orders as [|o l IH]; [apply Nat.le_refl|]. cbn [filter].
    destruct (Qlt_bool (margin_pct o) T) eqn:E1.
    + apply Qlt_bool_iff in E1.
      assert (E2 : Qlt_bool (margin_pct o) T' = true) by (apply Qlt_bool_iff; lra).
      rewrite E2. cbn [List.length]. now apply le_n_S.
    + destruct (Qlt_bool (margin_pct o) T'); [cbn [List.length]; now apply le_S | exact IH].
  - intro Hall. unfold identify_margin_opportunities. cbn [orders_df init].
    rewrite filter_nothing; [reflexivity|].
    intros o Ho. destruct (Qlt_bool (margin_pct o) T') eqn:E; [|reflexivity].
    apply Qlt_bool_iff in E. specialize (Hall o Ho). lra.
Qed.

Lemma margin_opportunities_grow_with_threshold_witness :
  (10 <= 15)%Q /\
  (List.length (identify_margin_opportunities (init Samples.workload_orders None) 10)
   <= List.length (identify_margin_opportunities (init Samples.workload_orders None) 15))%nat.
Proof.
  assert (H : (10 <= 15)%Q) by discriminate.
  split; [exact H|].
  apply (margin_opportunities_grow_with_threshold Samples.workload_orders None 10 15 H).
Defined.

Lemma count_if_disjoint {B : Type} (p q : B -> bool) (l : list B) :
  (forall x, p x = true -> q x = false) ->
  count_if p l + count_if q l <= Z.of_nat (List.length l).
Proof.
  intro H. induction l as [|x l IH]; [unfold count_if; simpl; lia|].
  rewrite !count_if_cons. cbn [List.length].
  destruct (p x) eqn:Ep; [rewrite (H x Ep)|destruct (q x)]; lia.
Qed.

(** The margin metrics agree with the other methods: the count of
    low-margin orders is the number of rows that
    [identify_margin_opportunities] returns for the threshold 10, the
    total cost is the total purchases of the concentration analysis,
    and no order is counted both as low and as high margin. *)
Theorem margin_metrics_agree_with_opportunities
  (orders : list Order) (lines : option (list OrderLine)) :
  orders_with_low_margin (calculate_margin_metrics (init orders lines))
  = Z.of_nat (List.length (identify_margin_opportunities (init orders lines) 10)) /\
  (mm_total_cost (calculate_margin_metrics (init orders lines))
   == total_purchases (init orders lines))%Q /\
  orders_with_low_margin (calculate_margin_metrics (init orders lines))
  + orders_with_high_margin (calculate_margin_metrics (init orders lines))
  <= Z.of_nat (List.length orders).
Proof.
  cbn [calculate_margin_metrics orders_with_low_margin orders_with_high_margin
       mm_total_cost orders_df init].
  split; [|split].
  - unfold identify_margin_opportunities, count_if. cbn [orders_df init].
    now rewrite sort_by_length, length_map.
  - symmetry. apply total_purchases_sum.
  - apply count_if_disjoint. intros o Hlow.
    apply Qlt_bool_iff in Hlow.
    destruct (Qlt_bool 20 (margin_pct o)) eqn:E; [|reflexivity].
    apply Qlt_bool_iff in E. lra.
Qed.

(* ------------------------------------------------------------------ *)
(** ** The supplier analysis *)

Lemma by_purchases_desc_total (a b : SupplierRow) :
  by_purchases_desc a b = true \/ by_purchases_desc b a = true.
Proof.
  unfold by_purchases_desc.
  destruct (Qlt_le_dec (sr_total_purchases a) (sr_total_purchases b)) as [H|H].
  - right. apply Qle_bool_iff. now apply Qlt_le_weak.
  - left. now apply Qle_bool_iff.
Qed.

(** The rows come in descending order of total purchases; the
    suppliers of the rows are the suppliers that have an order; every
    row counts at least one order; and a supplier that the supplier
    table lacks keeps its row, with the joined columns empty. *)
Theorem supplier_analysis_rows
  (orders : list Order) (lines : option (list OrderLine)) (suppliers_df : list Supplier) :
  Sorted (fun a b => (sr_total_purchases b <= sr_total_purchases a)%Q)
         (analyze_by_supplier (init orders lines) suppliers_df) /\
  (forall s : string,
     In s (map sr_supplier_id (analyze_by_supplier (init orders lines) suppliers_df))
     <-> exists o, In o orders /\ supplier_id o = s) /\
  (forall row : SupplierRow,
     In row (analyze_by_supplier (init orders lines) suppliers_df) ->
     1 <= sr_num_orders row /\
     (sr_info row = None <->
      forall x, In x suppliers_df -> sup_supplier_id x <> sr_supplier_id row)).
Proof.
  unfold analyze_by_supplier. cbn [orders_df init].
  set (keys := sorted_keys (map supplier_id orders)).
  set (all_purchases := Qsum (map _ keys)).
  set (branch := supplier_join (init orders lines) suppliers_df all_purchases).
  assert (Hbranch : forall s row, In row (branch s) ->
            sr_supplier_id row = s /\
            sr_num_orders row = Z.of_nat (List.length (supplier_group (init orders lines) s)) /\
            (sr_info row = None <->
             forall x, In x suppliers_df -> sup_supplier_id x <> s)).
  { intros s row Hrow. unfold branch, supplier_join in Hrow.
    destruct (filter (fun x => String.eqb (sup_supplier_id x) s) suppliers_df)
      as [|x found] eqn:Ef.
    - destruct Hrow as [<-|[]]. cbn [supplier_metrics sr_supplier_id sr_num_orders sr_info].
      repeat split; intros; try reflexivity.
      intro Hx. assert (Hin : In x (filter (fun x => String.eqb (sup_supplier_id x) s)
                                           suppliers_df))
        by (apply filter_In; split; [assumption | now apply String.eqb_eq]).
      rewrite Ef in Hin. contradiction.
    - apply in_map_iff in Hrow as (x0 & <- & Hx0).
      cbn [supplier_metrics sr_supplier_id sr_num_orders sr_info].
      repeat split; try discriminate.
      intro Hnone. exfalso. rewrite <- Ef in Hx0.
      apply filter_In in Hx0 as [Hx0 Hid]. apply String.eqb_eq in Hid.
      exact (Hnone x0 Hx0 Hid). }
  assert (Hnonempty : forall s, exists row, In row (branch s)).
  { intro s. unfold branch, supplier_join.
    destruct (filter (fun x => String.eqb (sup_supplier_id x) s) suppliers_df);
      eexists; now left. }
  split; [|split].
  - apply (Sorted_weaken (le_of by_purchases_desc)).
    + intros a b H. now apply Qle_bool_iff.
    + apply sort_by_sorted, by_purchases_desc_total.
  - intro s. rewrite in_map_iff. split.
    + intros (row & Hs & Hrow). apply sort_by_In, in_flat_map in Hrow as (s' & Hs' & Hrow).
      destruct (Hbranch s' row Hrow) as (Hid & _). 
      apply sorted_keys_In, in_map_iff in Hs' as (o & Ho & Hin).
      exists o. split; [exact Hin | congruence].
    + intros (o & Hin & Ho). destruct (Hnonempty s) as (row & Hrow).
      exists row. split; [now apply (Hbranch s row Hrow)|].
      apply sort_by_In, in_flat_map. exists s. split; [|exact Hrow].
      apply sorted_keys_In, in_map_iff. now exists o.
  - intros row Hrow. apply sort_by_In, in_flat_map in Hrow as (s & Hs & Hrow).
    destruct (Hbranch s row Hrow) as (Hid & Hn & Hinfo).
    split; [|now rewrite Hid].
    rewrite Hn. apply sorted_keys_In, in_map_iff in Hs as (o & Ho & Hin).
    assert (Hg : In o (supplier_group (init orders lines) s))
      by (apply filter_In; split; [exact Hin | now apply String.eqb_eq]).
    destruct (supplier_group (init orders lines) s); [contradiction | simpl List.length; lia].
Qed.

(* ------------------------------------------------------------------ *)
(** ** The category analysis with order lines *)

Lemma dedup_nonempty (l : list string) : l <> [] -> dedup l <> [].
Proof.
  destruct l; [congruence | discriminate].
Qed.

(** With order lines the category analysis raises nothing: it returns
    rows in descending order of total sales, with distinct
    categories; the category of every row is a category of the SKU
    table, and every row counts at least one order and stems from an
    order line of an order of the table. *)
Theorem category_analysis_rows
  (orders : list Order) (lines : list OrderLine) (skus_df : list Sku) :
  exists rows : list CategoryRow,
    analyze_by_category (init orders (Some lines)) skus_df = Return rows /\
    Sorted (fun a b => (total_sales b <= total_sales a)%Q) rows /\
    NoDup (map c_category rows) /\
    (forall row, In row rows ->
       In (c_category row) (map category skus_df) /\
       1 <= num_orders row /\
       exists (l : OrderLine) (o : Order),
         In l lines /\ In o orders /\ order_id o = line_order_id l).
Proof.
  unfold analyze_by_category. cbn [order_lines_df init orders_df].
  eexists. split; [reflexivity|].
  match goal with
  | |- context [sort_by ?f (map ?g (map ?h ?k))] =>
      set (F := f); set (G := g); set (H := h); set (K := k)
  end.
  assert (Hrows : forall row, In row (map G (map H K)) ->
            exists c, In c K /\ row = G (H c)).
  { intros row Hrow. apply in_map_iff in Hrow as (t & <- & Ht).
    apply in_map_iff in Ht as (c & <- & Hc). now exists c. }
  split; [|split].
  - apply (Sorted_weaken (le_of F)).
    + intros a b Hab. now apply Qle_bool_iff.
    + apply sort_by_sorted. intros a b. unfold F.
      destruct (Qlt_le_dec (total_sales a) (total_sales b)) as [Hlt|Hle].
      * right. apply Qle_bool_iff. now apply Qlt_le_weak.
      * left. now apply Qle_bool_iff.
  - eapply Permutation_NoDup.
    + apply Permutation_map, sort_by_perm.
    + rewrite !map_map. cbn [G H c_category]. rewrite map_id.
      apply sorted_keys_NoDup.
  - intros row Hrow. apply sort_by_In in Hrow.
    destruct (Hrows row Hrow) as (c & Hc & ->).
    cbn [G H c_category num_orders].
    apply sorted_keys_In, in_map_iff in Hc as (r & Hrc & Hr).
    assert (Hr' := Hr).
    apply in_flat_map in Hr' as (lc & Hlc & Hr').
    apply in_map_iff in Hr' as (o & Hro & Ho).
    apply filter_In in Ho as [Ho Hoid]. apply String.eqb_eq in Hoid.
    unfold merge_sku_category in Hlc.
    apply in_flat_map in Hlc as (l & Hl & Hlc).
    apply in_map_iff in Hlc as (k & Hk & Hkin).
    apply filter_In in Hkin as [Hkin _].
    subst r lc. cbn [fst snd] in *.
    split; [subst c; now apply in_map|]. split.
    + match goal with
      | |- 1 <= Z.of_nat (List.length (dedup ?x)) =>
          assert (Hx : x <> [])
      end.
      { intro E. apply map_eq_nil in E.
        match type of E with
        | filter ?p ?l0 = [] =>
            assert (Hin : In ((l, category k), margin_pct o) (filter p l0))
        end.
        { apply filter_In. split; [exact Hr|]. cbn [fst snd].
          rewrite Hrc. apply String.eqb_refl. }
        rewrite E in Hin. contradiction. }
      apply dedup_nonempty in Hx.
      match goal with
      | |- 1 <= Z.of_nat (List.length ?d) => destruct d; [congruence | simpl List.length; lia]
      end.
    + exists l, o. repeat split; assumption.
Qed.

(* ------------------------------------------------------------------ *)
(** ** The weekly KPIs *)

Lemma count_if_le_length {B : Type} (p : B -> bool) (l : list B) :
  count_if p l <= Z.of_nat (List.length l).
Proof.
  unfold count_if. apply inj_le, filter_length_le.
Qed.

Lemma round_half_even_lower (q : Q) (n : Z) :
  (inject_Z n <= q)%Q -> n <= round_half_even q.
Proof.
  intro H. apply Z.le_trans with (Qfloor q); [|apply round_half_even_ge_floor].
  rewrite <- (Qfloor_Z n). now apply Qfloor_resp_le.
Qed.

Lemma round_half_even_upper (q : Q) (n : Z) :
  (q <= inject_Z n)%Q -> round_half_even q <= n.
Proof.
  intro H. unfold round_half_even.
  assert (Hf : Qfloor q <= n)
    by (rewrite <- (Qfloor_Z n); now apply Qfloor_resp_le).
  destruct (Z.eq_dec (Qfloor q) n) as [E|E].
  - assert (Hlt : (q - inject_Z (Qfloor q) < 1 # 2)%Q).
    { rewrite E. apply Qle_lt_trans with 0%Q; [lra | reflexivity]. }
    assert (Hc : (q - inject_Z (Qfloor q) ?= 1 # 2)%Q = Lt)
      by (apply (proj1 (Qlt_alt _ _)); exact Hlt).
    rewrite Hc. lia.
  - destruct (q - inject_Z (Qfloor q) ?= 1 # 2)%Q; [destruct (Z.even (Qfloor q))| |]; lia.
Qed.

(** Rounding to one decimal keeps a percentage within 0 and 100. *)
Lemma round_dec_1_percentage (q : Q) :
  (0 <= q)%Q -> (q <= 100)%Q -> (0 <= round_dec 1 q)%Q /\ (round_dec 1 q <= 100)%Q.
Proof.
  intros H0 H1. unfold round_dec. change (10 ^ Z.of_nat 1) with 10.
  assert (Hl : 0 <= round_half_even (q * inject_Z 10)).
  { apply round_half_even_lower. change (inject_Z 0) with 0%Q.
    change (inject_Z 10) with 10%Q. lra. }
  assert (Hu : round_half_even (q * inject_Z 10) <= 1000).
  { apply round_half_even_upper. change (inject_Z 1000) with 1000%Q.
    change (inject_Z 10) with 10%Q. lra. }
  rewrite Zle_Qle in Hl, Hu.
  change (inject_Z 0) with 0%Q in Hl. change (inject_Z 1000) with 1000%Q in Hu.
  change (inject_Z 10) with 10%Q at 2 4.
  split.
  - apply Qle_shift_div_l; [reflexivity | lra].
  - apply Qle_shift_div_r; [reflexivity | lra].
Qed.

Lemma calculate_weekly_kpis_at
  (self : list Invoice) (week_arg year_arg : option Z) (row : KpiRow) :
  In row (calculate_weekly_kpis self week_arg year_arg) ->
  exists w y, In row (weekly_kpis_at self w y).
Proof.
  unfold calculate_weekly_kpis. intro H.
  destruct week_arg as [w|], year_arg as [y|]; try (now exists w, y);
    destruct (Zmax_list (map week self)) as [w'|], (Zmax_list (map year self)) as [y'|];
    try contradiction; now exists w', y'.
Qed.

(** For a given week and year the table has one row per analyst with
    an invoice in that period; its volumes add up to the number of
    invoices of the period, every row carries the period, a
    completion of 100 and a volume of at least 1. *)
Theorem weekly_kpis_cover_the_period (self : list Invoice) (w y : Z) :
  Zsum (map KPI_1_Volumen (calculate_weekly_kpis self (Some w) (Some y)))
  = count_if (fun r => (week r =? w) && (year r =? y)) self /\
  NoDup (map k_analyst (calculate_weekly_kpis self (Some w) (Some y))) /\
  (forall a : string,
     In a (map k_analyst (calculate_weekly_kpis self (Some w) (Some y)))
     <-> exists r, In r self /\ assigned_to r = a /\ week r = w /\ year r = y) /\
  (forall row : KpiRow,
     In row (calculate_weekly_kpis self (Some w) (Some y)) ->
     Semana row = w /\ Año row = y /\ KPI_2_Cumplimiento row = 100%Q /\
     1 <= KPI_1_Volumen row).
Proof.
  cbn [calculate_weekly_kpis]. unfold weekly_kpis_at.
  set (week_data := filter (fun r => (week r =? w) && (year r =? y)) self).
  set (keys := sorted_keys (map assigned_to week_data)).
  split; [|split; [|split]].
  - rewrite map_map. cbn [KPI_1_Volumen].
    pose proof (counts_per_key_sum assigned_to week_data keys (sorted_keys_NoDup _)) as H.
    unfold count_if in H. unfold count_if. fold week_data. apply H.
    intros r Hr. apply sorted_keys_In. now apply in_map.
  - rewrite map_map. cbn [k_analyst]. rewrite map_id. apply sorted_keys_NoDup.
  - intro a. rewrite map_map. cbn [k_analyst]. rewrite map_id.
    unfold keys. rewrite sorted_keys_In, in_map_iff. split.
    + intros (r & Ha & Hr). apply filter_In in Hr as [Hr Hp].
      apply andb_true_iff in Hp as [Hw Hy].
      exists r. repeat split; [exact Hr | exact Ha | now apply Z.eqb_eq | now apply Z.eqb_eq].
    + intros (r & Hr & Ha & Hw & Hy). exists r. split; [exact Ha|].
      apply filter_In. split; [exact Hr|].
      apply andb_true_iff. split; now apply Z.eqb_eq.
  - intros row Hrow. apply in_map_iff in Hrow as (a & <- & Ha).
    cbn [Semana Año KPI_2_Cumplimiento KPI_1_Volumen]. repeat split.
    apply sorted_keys_In, in_map_iff in Ha as (r & Hra & Hr).
    assert (Hg : In r (filter (fun r => String.eqb (assigned_to r) a) week_data))
      by (apply filter_In; split; [exact Hr | now apply String.eqb_eq]).
    destruct (filter (fun r => String.eqb (assigned_to r) a) week_data);
      [contradiction | simpl List.length; lia].
Qed.

Lemma weekly_quality_row_finite
  (self : list Invoice) (week_arg year_arg : option Z) (row : KpiRow) :
  In row (calculate_weekly_kpis self week_arg year_arg) ->
  exists q : Q, KPI_3_Calidad row = Fin q.
Proof.
  intro Hrow. apply calculate_weekly_kpis_at in Hrow as (w & y & Hrow).
  unfold weekly_kpis_at in Hrow.
  apply in_map_iff in Hrow as (a & <- & Ha). cbn [KPI_3_Calidad].
  match goal with
  | |- context [fdiv ?c (inject_Z (Z.of_nat (List.length ?g)))] =>
      assert (Hn : 1 <= Z.of_nat (List.length g))
  end.
  { apply sorted_keys_In, in_map_iff in Ha as (r & Hra & Hr).
    match goal with
    | |- 1 <= Z.of_nat (List.length ?g) =>
        assert (Hg : In r g)
          by (apply filter_In; split; [exact Hr | now apply String.eqb_eq]);
        destruct g; [contradiction | simpl List.length; lia]
    end. }
  rewrite fdiv_finite.
  - cbn [fscale fillna0 fround]. eexists. reflexivity.
  - change 0%Q with (inject_Z 0). rewrite inject_Z_injective. lia.
Qed.

(** The quality of every row is a finite percentage between 0 and
    100, whether the period is given or defaulted. *)
Theorem weekly_quality_is_a_percentage
  (self : list Invoice) (week_arg year_arg : option Z) (row : KpiRow)
  (Hrow : In row (calculate_weekly_kpis self week_arg year_arg)) :
  exists q : Q, KPI_3_Calidad row = Fin q /\ (0 <= q)%Q /\ (q <= 100)%Q.
Proof.
  apply calculate_weekly_kpis_at in Hrow as (w & y & Hrow).
  unfold weekly_kpis_at in Hrow.
  set (week_data := filter (fun r => (week r =? w) && (year r =? y)) self) in *.
  apply in_map_iff in Hrow as (a & <- & Ha). cbn [KPI_3_Calidad].
  set (g := filter (fun r => String.eqb (assigned_to r) a) week_data).
  assert (Hn : 1 <= Z.of_nat (List.length g)).
  { apply sorted_keys_In, in_map_iff in Ha as (r & Hra & Hr).
    assert (Hg : In r g)
      by (apply filter_In; split; [exact Hr | now apply String.eqb_eq]).
    destruct g; [contradiction | simpl List.length; lia]. }
  pose proof (count_if_nonneg (fun r => negb (has_error r)) g) as Hc0.
  pose proof (count_if_le_length (fun r => negb (has_error r)) g) as Hc1.
  set (c := count_if (fun r => negb (has_error r)) g) in *.
  set (n := Z.of_nat (List.length g)) in *.
  assert (Hnq : (0 < inject_Z n)%Q)
    by (change 0%Q with (inject_Z 0); rewrite <- Zlt_Qlt; lia).
  rewrite fdiv_finite by (intro E; rewrite E in Hnq; discriminate).
  cbn [fscale fillna0 fround]. eexists. split; [reflexivity|].
  apply round_dec_1_percentage.
  - apply Qmult_le_0_compat; [|discriminate].
    apply Qle_shift_div_l; [exact Hnq|]. rewrite Qmult_0_l.
    change 0%Q with (inject_Z 0). rewrite <- Zle_Qle. exact Hc0.
  - assert (H1 : (inject_Z c / inject_Z n <= 1)%Q).
    { apply Qle_shift_div_r; [exact Hnq|]. rewrite Qmult_1_l.
      rewrite <- Zle_Qle. exact Hc1. }
    lra.
Qed.

Lemma weekly_quality_is_a_percentage_witness :
  exists (row : KpiRow) (q : Q),
    In row (calculate_weekly_kpis Samples.mixed_invoices None None) /\
    KPI_3_Calidad row = Fin q /\ (0 <= q)%Q /\ (q <= 100)%Q.
Proof.
  assert (H : In (hd Samples.no_kpi_row
                     (calculate_weekly_kpis Samples.mixed_invoices None None))
                 (calculate_weekly_kpis Samples.mixed_invoices None None))
    by (vm_compute; left; reflexivity).
  destruct (weekly_quality_is_a_percentage Samples.mixed_invoices None None _ H)
    as (q & Hq).
  eexists. exists q. split; [exact H | exact Hq].
Defined.

(* ------------------------------------------------------------------ *)
(** ** The purchases per supplier *)

(** [supplier_purchases] lists every supplier that has an order
    once, in descending order of purchases; the purchases add up to
    the cost of all orders, and on a table with rows the method
    returns a dict whose [total_suppliers] is the number of distinct
    suppliers. *)
Theorem supplier_purchases_partition_the_cost
  (orders : list Order) (lines : option (list OrderLine)) :
  NoDup (map fst (supplier_purchases (init orders lines))) /\
  (forall s : string,
     In s (map fst (supplier_purchases (init orders lines)))
     <-> exists o, In o orders /\ supplier_id o = s) /\
  Sorted (fun a b => (snd b <= snd a)%Q) (supplier_purchases (init orders lines)) /\
  (total_purchases (init orders lines) == Qsum (map total_cost orders))%Q /\
  (orders <> [] ->
   exists r : Concentration,
     calculate_concentration_risk (init orders lines) = Return r /\
     total_suppliers r = Z.of_nat (List.length (dedup (map supplier_id orders)))).
Proof.
  assert (Hperm : Permutation
                    (map fst (supplier_purchases (init orders lines)))
                    (sorted_keys (map supplier_id orders))).
  { unfold supplier_purchases. cbn [orders_df init].
    eapply perm_trans.
    - apply Permutation_map, Permutation_sym, sort_by_perm.
    - rewrite map_map. cbn [fst]. rewrite map_id. apply Permutation_refl. }
  split; [|split; [|split; [|split]]].
  - eapply Permutation_NoDup; [apply Permutation_sym, Hperm | apply sorted_keys_NoDup].
  - intro s. split.
    + intro Hs. apply (Permutation_in _ Hperm) in Hs.
      apply sorted_keys_In, in_map_iff in Hs as (o & Ho & Hin). now exists o.
    + intros (o & Hin & Ho). apply (Permutation_in _ (Permutation_sym Hperm)).
      apply sorted_keys_In, in_map_iff. now exists o.
  - unfold supplier_purchases.
    apply (Sorted_weaken (le_of (fun a b : string * Q => Qle_bool (snd b) (snd a)))).
    + intros a b H. now apply Qle_bool_iff.
    + apply sort_by_sorted. intros a b.
      destruct (Qlt_le_dec (snd a) (snd b)) as [H|H].
      * right. apply Qle_bool_iff. now apply Qlt_le_weak.
      * left. now apply Qle_bool_iff.
  - apply total_purchases_sum.
  - intro Hrows. exists (concentration_dict (init orders lines)).
    split; [now apply concentration_risk_returns|].
    cbn [concentration_dict total_suppliers].
    unfold supplier_purchases, sorted_keys. cbn [orders_df init].
    now rewrite !sort_by_length, length_map, sort_by_length.
Qed.

(* ------------------------------------------------------------------ *)
(** ** The trend *)

Lemma weekly_kpis_at_period (self : list Invoice) (w y : Z) (row : KpiRow) :
  In row (weekly_kpis_at self w y) -> Semana row = w /\ Año row = y.
Proof.
  unfold weekly_kpis_at. intro H. apply in_map_iff in H as (a & <- & _).
  split; reflexivity.
Qed.

Lemma by_year_week_total (a b : KpiRow) :
  by_year_week a b = true \/ by_year_week b a = true.
Proof.
  unfold by_year_week.
  destruct (Z.ltb_spec (Año a) (Año b)), (Z.ltb_spec (Año b) (Año a)),
    (Z.eqb_spec (Año a) (Año b)), (Z.eqb_spec (Año b) (Año a)),
    (Z.leb_spec (Semana a) (Semana b)), (Z.leb_spec (Semana b) (Semana a));
    cbn; auto; lia.
Qed.

Lemma by_year_week_iff (a b : KpiRow) :
  by_year_week a b = true <->
  Año a < Año b \/ (Año a = Año b /\ Semana a <= Semana b).
Proof.
  unfold by_year_week.
  rewrite orb_true_iff, andb_true_iff, Z.ltb_lt, Z.eqb_eq, Z.leb_le. tauto.
Qed.

(** The rows of the trend come in ascending order of year, then
    week; every row is a row of the weekly table of a visited period;
    and with a non-empty analyst id all rows are rows of that
    analyst.  This holds with either arithmetic of the week. *)
Theorem trend_rows_are_sorted_and_filtered
  (arith : week_arith) (self : list Invoice) (analyst : option string) (weeks : nat)
  (rows : list KpiRow) (periods : list (Z * Z))
  (Hperiods : trend_periods arith self weeks = Some periods)
  (Hrows : calculate_trend arith self analyst weeks = Some rows) :
  Sorted (fun a b => Año a < Año b \/ (Año a = Año b /\ Semana a <= Semana b)) rows /\
  (forall row, In row rows ->
     In (Semana row, Año row) periods /\
     In row (calculate_weekly_kpis self (Some (Semana row)) (Some (Año row))) /\
     (forall a, analyst = Some a -> a <> "" -> k_analyst row = a)).
Proof.
  unfold calculate_trend in Hrows. rewrite Hperiods in Hrows.
  injection Hrows as <-. split.
  - apply (Sorted_weaken (le_of by_year_week)).
    + intros a b H. now apply by_year_week_iff.
    + apply sort_by_sorted, by_year_week_total.
  - intros row Hrow. apply sort_by_In, in_concat in Hrow as (frame & Hframe & Hrow).
    apply in_map_iff in Hframe as ([w y] & <- & Hp).
    assert (Hin : In row (calculate_weekly_kpis self (Some w) (Some y)) /\
                  (forall a, analyst = Some a -> a <> "" -> k_analyst row = a)).
    { destruct analyst as [a|].
      - destruct (String.eqb_spec a "") as [->|Hne].
        + split; [exact Hrow|]. intros a' [= <-] Ha. congruence.
        + apply filter_In in Hrow as [Hrow Ha]. apply String.eqb_eq in Ha.
          split; [exact Hrow|]. intros a' [= <-] _. exact Ha.
      - split; [exact Hrow|]. discriminate. }
    destruct Hin as [Hin Hfilter].
    destruct (weekly_kpis_at_period self w y row Hin) as [-> ->].
    repeat split; assumption.
Qed.

Lemma trend_rows_are_sorted_and_filtered_witness :
  exists rows periods,
    trend_periods UInt32Wrap Samples.mixed_invoices 2 = Some periods /\
    calculate_trend UInt32Wrap Samples.mixed_invoices (Some "B1") 2 = Some rows /\
    forall row, In row rows -> In (Semana row, Año row) periods.
Proof.
  eexists. eexists.
  assert (H1 : trend_periods UInt32Wrap Samples.mixed_invoices 2
               = Some [(2, 2024); (1, 2024)])
    by (vm_compute; reflexivity).
  assert (H2 : calculate_trend UInt32Wrap Samples.mixed_invoices (Some "B1") 2
               = Some (sort_by by_year_week
                         (List.concat
                            (map (fun '(week_num, yr) =>
                                    filter (fun k => String.eqb (k_analyst k) "B1")
                                           (calculate_weekly_kpis Samples.mixed_invoices
                                              (Some week_num) (Some yr)))
                                 [(2, 2024); (1, 2024)]))))
    by (unfold calculate_trend; rewrite H1; reflexivity).
  split; [exact H1|]. split; [exact H2|].
  intros row Hrow.
  destruct (trend_rows_are_sorted_and_filtered
              UInt32Wrap Samples.mixed_invoices (Some "B1") 2 _ _ H1 H2) as [_ Hall].
  apply (Hall row Hrow).
Defined.

Lemma trend_periods_weeks_positive_witness :
  Zmax_list (map week Samples.week2_invoices) = Some 2 /\
  Z.of_nat 4 <= 2 + 52 /\
  forall p, In p [(2, 2024); (1, 2024); (52, 2023); (4294967295, 2024)] -> 1 <= fst p.
Proof.
  assert (H1 : Zmax_list (map week Samples.week2_invoices) = Some 2) by reflexivity.
  assert (H2 : Z.of_nat 4 <= 2 + 52) by (vm_compute; discriminate).
  assert (H3 : trend_periods UInt32Wrap Samples.week2_invoices 4
               = Some [(2, 2024); (1, 2024); (52, 2023); (4294967295, 2024)])
    by (vm_compute; reflexivity).
  split; [exact H1|]. split; [exact H2|].
  exact (trend_periods_weeks_positive UInt32Wrap Samples.week2_invoices 4 2 _ H1 H2 H3).
Defined.

(** Two indices below 2^32 with the same difference modulo 2^32 are
    equal. *)
Lemma mod_difference_injective (m i j : Z) :
  0 <= i < 2 ^ 32 -> 0 <= j < 2 ^ 32 ->
  (m - i) mod 2 ^ 32 = (m - j) mod 2 ^ 32 -> i = j.
Proof.
  intros Hi Hj H.
  pose proof (Z.div_mod (m - i) (2 ^ 32) ltac:(discriminate)) as Ei.
  pose proof (Z.div_mod (m - j) (2 ^ 32) ltac:(discriminate)) as Ej.
  rewrite H in Ei.
  change (2 ^ 32) with 4294967296 in *. lia.
Qed.

(** Different turns of the loop visit different periods; with uint32
    arithmetic, for indices that fit in 32 bits. *)
Lemma trend_period_injective (arith : week_arith) (max_week max_year i j : Z) :
  (arith = UInt32Wrap -> 0 <= i < 2 ^ 32 /\ 0 <= j < 2 ^ 32) ->
  trend_period arith max_week max_year i = trend_period arith max_week max_year j ->
  i = j.
Proof.
  intro Hfit. destruct arith.
  - destruct (trend_period_int64_cases max_week max_year i) as [[Hi ->]|[Hi ->]],
      (trend_period_int64_cases max_week max_year j) as [[Hj ->]|[Hj ->]];
      intro H; inversion H; lia.
  - destruct (Hfit eq_refl) as [Hi Hj].
    destruct (trend_period_uint32_cases max_week max_year i) as [[Wi ->]|[Wi ->]],
      (trend_period_uint32_cases max_week max_year j) as [[Wj ->]|[Wj ->]];
      intro H; inversion H; try lia;
      apply (mod_difference_injective max_week i j Hi Hj); congruence.
Qed.

Lemma NoDup_map_injective_on {A B : Type} (f : A -> B) (l : list A) :
  (forall x y, In x l -> In y l -> f x = f y -> x = y) -> NoDup l -> NoDup (map f l).
Proof.
  intros Hinj Hnd. induction Hnd as [|x l Hnotin _ IH]; cbn [map]; constructor.
  - intro H. apply in_map_iff in H as (y & Hy & Hin).
    apply Hinj in Hy; [subst y; contradiction | now right | now left].
  - apply IH. intros a b Ha Hb. apply Hinj; now right.
Qed.

(** Whenever the loop runs through, with either arithmetic of the
    week, it visits exactly [weeks] periods and never the same period
    twice; when the largest week of the table is a week number from 1
    on (below 2^32), the first period carries the largest week and the
    largest year of the table. *)
Theorem trend_periods_are_distinct
  (arith : week_arith) (self : list Invoice) (weeks : nat) (periods : list (Z * Z))
  (Hperiods : trend_periods arith self weeks = Some periods) :
  List.length periods = weeks /\
  NoDup periods /\
  (forall max_week max_year : Z,
     Zmax_list (map week self) = Some max_week ->
     Zmax_list (map year self) = Some max_year ->
     1 <= max_week < 2 ^ 32 -> (0 < weeks)%nat ->
     hd_error periods = Some (max_week, max_year)).
Proof.
  apply trend_periods_some in Hperiods as (mw & my & Ew & Ey & -> & Hfit).
  split; [|split].
  - now rewrite length_map, length_seq.
  - apply NoDup_map_injective_on; [|apply seq_NoDup].
    intros x y Hx Hy H. apply in_seq in Hx, Hy.
    apply trend_period_injective in H; [lia|].
    intro E. specialize (Hfit E). lia.
  - intros max_week max_year Hw Hy Hrange Hn.
    rewrite Ew in Hw. rewrite Ey in Hy. injection Hw as <-. injection Hy as <-.
    destruct weeks as [|n]; [inversion Hn|].
    cbn [seq map hd_error]. change (Z.of_nat 0) with 0.
    unfold trend_period, week_sub. rewrite Z.sub_0_r.
    destruct arith.
    + destruct (Z.ltb_spec mw 1); [lia | reflexivity].
    + rewrite Z.mod_small by lia.
      destruct (Z.ltb_spec mw 1); [lia | reflexivity].
Qed.

Lemma trend_periods_are_distinct_witness :
  exists periods,
    trend_periods UInt32Wrap Samples.week2_invoices 55 = Some periods /\
    List.length periods = 55%nat /\ NoDup periods.
Proof.
  eexists.
  assert (H : trend_periods UInt32Wrap Samples.week2_invoices 55
              = Some (map (fun i => trend_period UInt32Wrap 2 2024 (Z.of_nat i)) (seq 0 55)))
    by (vm_compute; reflexivity).
  split; [exact H|].
  destruct (trend_periods_are_distinct UInt32Wrap Samples.week2_invoices 55 _ H)
    as (Hl & Hn & _).
  split; [exact Hl | exact Hn].
Defined.

(* ------------------------------------------------------------------ *)
(** ** Performance issues *)

Lemma Qsum_inject_Z {B : Type} (f : B -> Z) (l : list B) :
  (Qsum (map (fun x => inject_Z (f x)) l) == inject_Z (Zsum (map f l)))%Q.
Proof.
  induction l as [|x l IH]; [reflexivity|].
  cbn [map]. rewrite Qsum_cons, IH.
  change (Zsum (f x :: map f l)) with (f x + Zsum (map f l)).
  now rewrite inject_Z_plus.
Qed.

(** The test [volume < mean * 0.5] on integers. *)
Lemma half_mean_test (v n S : Z) (s : Q) :
  1 <= n -> (s == inject_Z S)%Q ->
  Qlt_bool (inject_Z v) (s / inject_Z n * (1 # 2)) = true <-> 2 * v * n < S.
Proof.
  intros Hn Hs. rewrite Qlt_bool_iff.
  assert (Hnq : (0 < inject_Z n)%Q)
    by (change 0%Q with (inject_Z 0); rewrite <- Zlt_Qlt; lia).
  assert (Hc : (0 < 2 * inject_Z n)%Q) by lra.
  rewrite (Zlt_Qlt (2 * v * n) S), !inject_Z_mult. change (inject_Z 2) with 2%Q.
  rewrite <- Hs.
  assert (E : (s / inject_Z n * (1 # 2) * (2 * inject_Z n) == s)%Q)
    by (field; intro H; rewrite H in Hnq; discriminate).
  split; intro H.
  - rewrite <- E.
    setoid_replace (2 * inject_Z v * inject_Z n)%Q
      with (inject_Z v * (2 * inject_Z n))%Q by ring.
    now apply Qmult_lt_r.
  - apply (Qmult_lt_r _ _ (2 * inject_Z n)%Q Hc). rewrite E.
    setoid_replace (inject_Z v * (2 * inject_Z n))%Q
      with (2 * inject_Z v * inject_Z n)%Q by ring.
    exact H.
Qed.

Lemma Zsum_lt_bound {B : Type} (f : B -> Z) (l : list B) (c : Z) :
  l <> [] -> (forall x, In x l -> f x < c) ->
  Zsum (map f l) < c * Z.of_nat (List.length l).
Proof.
  induction l as [|x l IH]; intros Hne H; [congruence|].
  change (Zsum (map f (x :: l))) with (f x + Zsum (map f l)).
  assert (Hx : f x < c) by (apply H; now left).
  destruct l as [|y l].
  - cbn. lia.
  - assert (IH' : Zsum (map f (y :: l)) < c * Z.of_nat (List.length (y :: l)))
      by (apply IH; [discriminate | intros; apply H; now right]).
    replace (Z.of_nat (List.length (x :: y :: l)))
      with (1 + Z.of_nat (List.length (y :: l))) by (cbn [List.length]; lia).
    lia.
Qed.

Lemma filter_length_all {B : Type} (p : B -> bool) (l : list B) :
  List.length (filter p l) = List.length l -> forall x, In x l -> p x = true.
Proof.
  induction l as [|y l IH]; intros Hlen x Hx; [contradiction|].
  cbn [filter] in Hlen. pose proof (filter_length_le p l) as Hle.
  destruct (p y) eqn:Ey.
  - cbn [List.length] in Hlen. destruct Hx as [<-|Hx]; [exact Ey|].
    apply IH; [lia | exact Hx].
  - cbn [List.length] in Hlen. lia.
Qed.

(** On the rows [K] of the weekly table of the default period: an
    analyst is flagged for low volume exactly when twice its volume,
    times the number of analysts, is below the total volume; an
    analyst is flagged for low quality exactly when its quality is
    below the threshold; the summary counts the rows of [K] and the
    flagged analysts; and the volume alert never flags every
    analyst. *)
Theorem performance_issues_flags (self : list Invoice) (threshold_quality : Q) :
  (forall a : string,
     In a (low_volume (identify_performance_issues self threshold_quality)) <->
     exists row,
       In row (calculate_weekly_kpis self None None) /\ k_analyst row = a /\
       2 * KPI_1_Volumen row * Z.of_nat (List.length (calculate_weekly_kpis self None None))
       < Zsum (map KPI_1_Volumen (calculate_weekly_kpis self None None))) /\
  (forall a : string,
     In a (low_quality (identify_performance_issues self threshold_quality)) <->
     exists row q,
       In row (calculate_weekly_kpis self None None) /\ k_analyst row = a /\
       KPI_3_Calidad row = Fin q /\ (q < threshold_quality)%Q) /\
  total_analysts (summary (identify_performance_issues self threshold_quality))
  = Z.of_nat (List.length (calculate_weekly_kpis self None None)) /\
  analysts_with_quality_issues (summary (identify_performance_issues self threshold_quality))
  = Z.of_nat (List.length (low_quality (identify_performance_issues self threshold_quality))) /\
  analysts_with_volume_issues (summary (identify_performance_issues self threshold_quality))
  = Z.of_nat (List.length (low_volume (identify_performance_issues self threshold_quality))) /\
  (calculate_weekly_kpis self None None = [] \/
   analysts_with_volume_issues (summary (identify_performance_issues self threshold_quality))
   < total_analysts (summary (identify_performance_issues self threshold_quality))).
Proof.
  unfold identify_performance_issues.
  cbn [low_volume low_quality summary total_analysts analysts_with_quality_issues
       analysts_with_volume_issues].
  set (K := calculate_weekly_kpis self None None).
  set (n := Z.of_nat (List.length K)).
  set (S := Zsum (map KPI_1_Volumen K)).
  assert (Htest : forall row, In row K ->
            flt_right (inject_Z (KPI_1_Volumen row))
                      (fscale (1 # 2) (Qmean (map (fun k => inject_Z (KPI_1_Volumen k)) K)))
            = true <-> 2 * KPI_1_Volumen row * n < S).
  { intros row Hrow.
    assert (Hn : 1 <= n) by (unfold n; destruct K; [contradiction | simpl List.length; lia]).
    unfold Qmean. rewrite length_map. fold n.
    rewrite fdiv_finite.
    - cbn [fscale flt_right]. apply half_mean_test; [exact Hn | apply Qsum_inject_Z].
    - change 0%Q with (inject_Z 0). rewrite inject_Z_injective. lia. }
  assert (Hvol : forall row, In row K -> 1 <= KPI_1_Volumen row).
  { intros row Hrow. unfold K in Hrow.
    apply calculate_weekly_kpis_at in Hrow as (w & y & Hrow).
    unfold weekly_kpis_at in Hrow. apply in_map_iff in Hrow as (a & <- & Ha).
    cbn [KPI_1_Volumen].
    apply sorted_keys_In, in_map_iff in Ha as (r & Hra & Hr).
    match goal with
    | |- 1 <= Z.of_nat (List.length ?g) =>
        assert (Hg : In r g)
          by (apply filter_In; split; [exact Hr | now apply String.eqb_eq]);
        destruct g; [contradiction | simpl List.length; lia]
    end. }
  split; [|split; [|split; [|split; [|split]]]]; try reflexivity.
  - intro a. rewrite in_map_iff. split.
    + intros (row & Ha & Hrow). apply filter_In in Hrow as [Hrow Ht].
      exists row. repeat split; [exact Hrow | exact Ha | now apply Htest].
    + intros (row & Hrow & Ha & Ht). exists row. split; [exact Ha|].
      apply filter_In. split; [exact Hrow | now apply Htest].
  - intro a. rewrite in_map_iff. split.
    + intros (row & Ha & Hrow). apply filter_In in Hrow as [Hrow Ht].
      destruct (KPI_3_Calidad row) as [q| | |] eqn:Eq; cbn [flt_left] in Ht;
        try discriminate.
      * exists row, q. repeat split; [exact Hrow | exact Ha | exact Eq|].
        now apply Qlt_bool_iff.
      * exfalso. destruct (weekly_quality_row_finite self None None row Hrow) as (q & Hq).
        congruence.
    + intros (row & q & Hrow & Ha & Eq & Hlt). exists row. split; [exact Ha|].
      apply filter_In. split; [exact Hrow|]. rewrite Eq. cbn [flt_left].
      now apply Qlt_bool_iff.
  - destruct (Nat.eq_dec (List.length K) 0) as [H0|H0];
      [left; now apply length_zero_iff_nil|]. right.
    assert (Hn : 1 <= n) by (unfold n; lia).
    assert (HK : K <> []) by (intro E; apply H0; now rewrite E).
    rewrite length_map.
    set (p := fun k => flt_right (inject_Z (KPI_1_Volumen k))
                         (fscale (1 # 2)
                            (Qmean (map (fun k => inject_Z (KPI_1_Volumen k)) K)))).
    pose proof (filter_length_le p K) as Hle.
    destruct (Nat.eq_dec (List.length (filter p K)) (List.length K)) as [Heq|Hneq];
      [|unfold n; lia].
    exfalso.
    pose proof (filter_length_all p K Heq) as Hall.
    assert (Hlt : Zsum (map (fun row => 2 * KPI_1_Volumen row * n) K) < S * n).
    { apply Zsum_lt_bound; [exact HK|].
      intros row Hrow. apply Htest; [exact Hrow | now apply Hall]. }
    assert (Hscale : forall l, Zsum (map (fun row => 2 * KPI_1_Volumen row * n) l)
                               = 2 * n * Zsum (map KPI_1_Volumen l)).
    { induction l as [|k l IH]; [simpl; lia|].
      cbn [map]. change (Zsum (?x :: ?l0)) with (x + Zsum l0). rewrite IH.
      change (Zsum (?x :: ?l0)) with (x + Zsum l0). lia. }
    assert (HS : forall l, (forall r, In r l -> 1 <= KPI_1_Volumen r) ->
                           0 <= Zsum (map KPI_1_Volumen l)).
    { induction l as [|k l IH]; intro Hl; [simpl; lia|].
      cbn [map]. change (Zsum (?x :: ?l0)) with (x + Zsum l0).
      assert (1 <= KPI_1_Volumen k) by (apply Hl; now left).
      assert (0 <= Zsum (map KPI_1_Volumen l)) by (apply IH; intros; apply Hl; now right).
      lia. }
    rewrite (Hscale K) in Hlt. fold S in Hlt.
    pose proof (HS K Hvol) as HS0. fold S in HS0.
    nia.
Qed.

(* ------------------------------------------------------------------ *)
(** ** The extremes of the quality KPI *)

Lemma count_if_all {B : Type} (p : B -> bool) (l : list B) :
  (forall x, In x l -> p x = true) -> count_if p l = Z.of_nat (List.length l).
Proof.
  intro H. unfold count_if. now rewrite filter_all.
Qed.

(** In the weekly table of a given period, an analyst none of whose
    invoices of the period has an error has a quality of 100, and an
    analyst all of whose invoices of the period have an error has a
    quality of 0. *)
Theorem weekly_quality_extremes
  (self : list Invoice) (w y : Z) (row : KpiRow)
  (Hrow : In row (calculate_weekly_kpis self (Some w) (Some y))) :
  ((forall r, In r self -> assigned_to r = k_analyst row -> week r = w -> year r = y ->
              has_error r = false) ->
   feq (KPI_3_Calidad row) (Fin 100)) /\
  ((forall r, In r self -> assigned_to r = k_analyst row -> week r = w -> year r = y ->
              has_error r = true) ->
   feq (KPI_3_Calidad row) (Fin 0)).
Proof.
  cbn [calculate_weekly_kpis] in Hrow. unfold weekly_kpis_at in Hrow.
  set (week_data := filter (fun r => (week r =? w) && (year r =? y)) self) in *.
  apply in_map_iff in Hrow as (a & <- & Ha). cbn [KPI_3_Calidad k_analyst].
  set (g := filter (fun r => String.eqb (assigned_to r) a) week_data).
  assert (Hg : forall r, In r g ->
                         In r self /\ assigned_to r = a /\ week r = w /\ year r = y).
  { intros r Hr. apply filter_In in Hr as [Hr Hra]. apply String.eqb_eq in Hra.
    apply filter_In in Hr as [Hr Hp]. apply andb_true_iff in Hp as [Hw Hy].
    apply Z.eqb_eq in Hw, Hy. repeat split; assumption. }
  assert (Hn : 1 <= Z.of_nat (List.length g)).
  { apply sorted_keys_In, in_map_iff in Ha as (r & Hra & Hr).
    assert (Hin : In r g)
      by (apply filter_In; split; [exact Hr | now apply String.eqb_eq]).
    destruct g; [contradiction | simpl List.length; lia]. }
  assert (Hnq : ~ (inject_Z (Z.of_nat (List.length g)) == 0)%Q)
    by (change 0%Q with (inject_Z 0); rewrite inject_Z_injective; lia).
  rewrite fdiv_finite by exact Hnq. cbn [fscale fillna0].
  split; intro Hall.
  - rewrite count_if_all.
    + rewrite (fround_comp 1 _ 100); [vm_compute; reflexivity|].
      cbn [feq]. field. exact Hnq.
    + intros r Hr. destruct (Hg r Hr) as (H1 & H2 & H3 & H4).
      now rewrite (Hall r H1 H2 H3 H4).
  - rewrite count_if_none.
    + rewrite (fround_comp 1 _ 0); [vm_compute; reflexivity|].
      cbn [feq]. field. exact Hnq.
    + intros r Hr. destruct (Hg r Hr) as (H1 & H2 & H3 & H4).
      now rewrite (Hall r H1 H2 H3 H4).
Qed.

Lemma weekly_quality_extremes_witness :
  exists row : KpiRow,
    In row (calculate_weekly_kpis Samples.mixed_invoices (Some 1) (Some 2024)) /\
    feq (KPI_3_Calidad row) (Fin 100).
Proof.
  assert (H : In (hd Samples.no_kpi_row
                     (calculate_weekly_kpis Samples.mixed_invoices (Some 1) (Some 2024)))
                 (calculate_weekly_kpis Samples.mixed_invoices (Some 1) (Some 2024)))
    by (vm_compute; left; reflexivity).
  eexists. split; [exact H|].
  destruct (weekly_quality_extremes Samples.mixed_invoices 1 2024 _ H) as [Hclean _].
  apply Hclean. intros r Hr _ Hw _. simpl in Hr.
  destruct Hr as [<-|[<-|[<-|[<-|[]]]]]; try reflexivity; discriminate Hw.
Defined.

(* ------------------------------------------------------------------ *)
(** ** The tagging of orders and the bounds of the workload *)

(** The constructor keeps the orders, in order, and tags every one of
    them, whatever its SKU count, with one of the four labels and
    with the weight of that label: the weight is never NaN and lies
    between 1 and 10. *)
Theorem every_order_is_tagged (orders_df : list Order) (r : TaggedOrder)
  (Hr : In r (AnalystWorkloadKPI.init orders_df)) :
  map order (AnalystWorkloadKPI.init orders_df) = orders_df /\
  In (order r) orders_df /\
  complexity r = get_complexity (num_skus (order r)) /\
  In (complexity r) (map fst COMPLEXITY_CATEGORIES) /\
  exists w : Q,
    complexity_weight r = Some w /\
    In (complexity r, w) COMPLEXITY_WEIGHTS /\ (1 <= w)%Q /\ (w <= 10)%Q.
Proof.
  unfold AnalystWorkloadKPI.init, _categorize_complexity in *.
  split.
  - rewrite map_map. cbn [order]. apply map_id.
  - apply in_map_iff in Hr as (o & <- & Ho). cbn [order complexity complexity_weight].
    split; [exact Ho|]. split; [reflexivity|].
    destruct (get_complexity_cases (num_skus o)) as [[_ ->]|[[_ ->]|[[_ ->]|[_ ->]]]];
      (split; [cbn; tauto|]);
      eexists; (split; [reflexivity|]); (split; [cbn; tauto|]); split; discriminate.
Qed.

Lemma every_order_is_tagged_witness :
  exists r : TaggedOrder,
    In r (AnalystWorkloadKPI.init Samples.workload_orders) /\
    In (complexity r) (map fst COMPLEXITY_CATEGORIES).
Proof.
  assert (H : In (hd Samples.no_tagged_order
                     (AnalystWorkloadKPI.init Samples.workload_orders))
                 (AnalystWorkloadKPI.init Samples.workload_orders))
    by (vm_compute; left; reflexivity).
  eexists. split; [exact H|].
  apply (every_order_is_tagged Samples.workload_orders _ H).
Defined.

Lemma round_dec_2_between (q : Q) (lo hi : Z) :
  (inject_Z lo <= q)%Q -> (q <= inject_Z hi)%Q ->
  (inject_Z lo <= round_dec 2 q)%Q /\ (round_dec 2 q <= inject_Z hi)%Q.
Proof.
  intros Hlo Hhi. unfold round_dec. change (10 ^ Z.of_nat 2) with 100.
  assert (Hl : lo * 100 <= round_half_even (q * inject_Z 100)).
  { apply round_half_even_lower. rewrite inject_Z_mult.
    apply Qmult_le_compat_r; [exact Hlo | discriminate]. }
  assert (Hu : round_half_even (q * inject_Z 100) <= hi * 100).
  { apply round_half_even_upper. rewrite inject_Z_mult.
    apply Qmult_le_compat_r; [exact Hhi | discriminate]. }
  rewrite Zle_Qle, inject_Z_mult in Hl, Hu.
  split.
  - apply Qle_shift_div_l; [reflexivity | exact Hl].
  - apply Qle_shift_div_r; [reflexivity | exact Hu].
Qed.

Lemma group_weight_le_ten_length (orders : list Order) :
  (sum_skipna (map complexity_weight (AnalystWorkloadKPI.init orders))
   <= inject_Z (10 * Z.of_nat (List.length orders)))%Q.
Proof.
  induction orders as [|o l IH].
  - cbn. discriminate.
  - unfold AnalystWorkloadKPI.init, _categorize_complexity in *.
    cbn [map complexity_weight]. unfold sum_skipna in *. cbn [flat_map].
    assert (Hw : exists w, map_weight COMPLEXITY_WEIGHTS (get_complexity (num_skus o))
                           = Some w /\ (w <= 10)%Q).
    { destruct (complexity_weight_cases (num_skus o))
        as [[_ E]|[[_ E]|[[_ E]|[_ E]]]];
        unfold complexity_weight_of in E; rewrite E;
        eexists; (split; [reflexivity | discriminate]). }
    destruct Hw as (w & -> & Hle).
    cbn [app]. rewrite Qsum_cons.
    replace (10 * Z.of_nat (List.length (o :: l)))
      with (10 + 10 * Z.of_nat (List.length l)) by (simpl List.length; lia).
    rewrite inject_Z_plus.
    apply Qplus_le_compat; [exact Hle | exact IH].
Qed.

(** In every row of the workload table the weighted workload lies
    between the ticket count and ten times the ticket count. *)
Theorem weighted_workload_between_tickets_and_tenfold
  (orders_df : list Order) (row : WorkloadRow)
  (Hrow : In row (calculate_workload_by_analyst (AnalystWorkloadKPI.init orders_df))) :
  (inject_Z (total_tickets row) <= weighted_workload row)%Q /\
  (weighted_workload row <= inject_Z (10 * total_tickets row))%Q.
Proof.
  unfold calculate_workload_by_analyst in Hrow.
  apply in_map_iff in Hrow as (a & <- & _). cbn [total_tickets weighted_workload].
  rewrite group_of_tagged.
  set (l := filter (fun o => String.eqb (analyst_id o) a) orders_df).
  assert (E : List.length (AnalystWorkloadKPI.init l) = List.length l)
    by (unfold AnalystWorkloadKPI.init, _categorize_complexity; apply length_map).
  rewrite E. apply round_dec_2_between.
  - apply (group_weight_ge_length l).
  - apply (group_weight_le_ten_length l).
Qed.

Lemma weighted_workload_between_tickets_and_tenfold_witness :
  exists row : WorkloadRow,
    In row (calculate_workload_by_analyst (AnalystWorkloadKPI.init Samples.workload_orders)) /\
    (inject_Z (total_tickets row) <= weighted_workload row)%Q /\
    (weighted_workload row <= inject_Z (10 * total_tickets row))%Q.
Proof.
  assert (H : In (hd Samples.no_workload_row
                     (calculate_workload_by_analyst
                        (AnalystWorkloadKPI.init Samples.workload_orders)))
                 (calculate_workload_by_analyst
                    (AnalystWorkloadKPI.init Samples.workload_orders)))
    by (vm_compute; left; reflexivity).
  eexists. split; [exact H|].
  apply (weighted_workload_between_tickets_and_tenfold Samples.workload_orders _ H).
Defined.
